(** * Shiftly shift-parser API: a shallow embedding of the request pipeline

    The development follows the layout of the TypeScript sources:

    - JavaScript values and the few built-ins the handler relies on
      (truthiness, [typeof], [String.prototype.trim], property reads);
    - [utils/error-handler.util.ts]: the error taxonomy and the responder;
    - [config/environment.config.ts]: the configuration loader;
    - [middleware/cors.middleware.ts]: the CORS gate;
    - [middleware/validation.middleware.ts]: the request validator;
    - [services/ai-parser.service.ts]: the parsing orchestrator;
    - [parse.ts]: the entry point.

    Exceptions are modelled by a sum type ([inl] is a thrown value), the
    mutable response object by explicit state passing, and the calls to the
    components by a trace that the entry point returns next to the response. *)

From Stdlib Require Import String Ascii List Bool NArith ZArith QArith Lia.
From Stdlib Require Import DecimalString.
Import ListNotations.

Local Open Scope list_scope.
Local Open Scope Z_scope.

(* ================================================================== *)
(** * JavaScript strings                                               *)
(* ================================================================== *)

(** A JavaScript string is a sequence of UTF-16 code units; [length] counts
    code units. *)
Definition jsstring := list N.

(** String literals of the sources (all of them ASCII). *)
Definition lit (s : string) : jsstring :=
  map N_of_ascii (list_ascii_of_string s).

(** Strict equality [===] on strings: same code units, case-sensitive. *)
Fixpoint str_eqb (a b : jsstring) : bool :=
  match a, b with
  | [], [] => true
  | x :: a', y :: b' => N.eqb x y && str_eqb a' b'
  | _, _ => false
  end.

(** [TrimString] strips WhiteSpace and LineTerminator code points
    (ECMA-262, 12.2 and 12.3). *)
Definition isWhiteSpace (c : N) : bool :=
  (N.leb 9 c && N.leb c 13)            (* TAB, LF, VT, FF, CR *)
  || N.eqb c 32                        (* SPACE *)
  || N.eqb c 160                       (* NO-BREAK SPACE *)
  || N.eqb c 5760                      (* OGHAM SPACE MARK *)
  || (N.leb 8192 c && N.leb c 8202)    (* EN QUAD .. HAIR SPACE *)
  || N.eqb c 8232 || N.eqb c 8233      (* LINE / PARAGRAPH SEPARATOR *)
  || N.eqb c 8239 || N.eqb c 8287      (* NARROW NBSP, MEDIUM MATH SPACE *)
  || N.eqb c 12288                     (* IDEOGRAPHIC SPACE *)
  || N.eqb c 65279.                    (* ZERO WIDTH NO-BREAK SPACE *)

Fixpoint trimStart (s : jsstring) : jsstring :=
  match s with
  | c :: s' => if isWhiteSpace c then trimStart s' else s
  | [] => []
  end.

Definition trimEnd (s : jsstring) : jsstring := rev (trimStart (rev s)).

Definition trim (s : jsstring) : jsstring := trimEnd (trimStart s).

(** [s.trim() === ""] *)
Definition isBlank (s : jsstring) : bool := str_eqb (trim s) [].

(** [s.substring(0, n)] *)
Definition substring0 (n : nat) (s : jsstring) : jsstring := firstn n s.

(** [s.split(",")]: never returns an empty array. *)
Fixpoint split (sep : N) (s : jsstring) : list jsstring :=
  match s with
  | [] => [[]]
  | c :: s' =>
      if N.eqb c sep then [] :: split sep s'
      else match split sep s' with
           | tok :: rest => (c :: tok) :: rest
           | [] => [[c]]
           end
  end.

(** Template-literal rendering of a non-negative integer, [`${i}`]. *)
Definition decimal (n : nat) : jsstring :=
  lit (NilEmpty.string_of_uint (Nat.to_uint n)).

(* ================================================================== *)
(** * JavaScript values                                                *)
(* ================================================================== *)

(** The values a parsed JSON body or model response can hold, plus
    [undefined].  An object is the list of its own enumerable properties in
    enumeration order, with unique keys. Numbers are finite rationals (JSON
    cannot denote NaN or an infinity). *)
#[warnings="-register-all"]
Inductive JSVal : Type :=
| JUndefined
| JNull
| JBool (b : bool)
| JNum (q : Q)
| JStr (s : jsstring)
| JArr (items : list JSVal)
| JObj (props : list (jsstring * JSVal)).

Definition JInt (z : Z) : JSVal := JNum (inject_Z z).
Definition JLen (s : jsstring) : JSVal := JInt (Z.of_nat (length s)).

(** [typeof v] *)
Definition typeof (v : JSVal) : jsstring :=
  match v with
  | JUndefined => lit "undefined"
  | JNull => lit "object"
  | JBool _ => lit "boolean"
  | JNum _ => lit "number"
  | JStr _ => lit "string"
  | JArr _ => lit "object"
  | JObj _ => lit "object"
  end.

(** [typeof v === "string"] and [typeof v === "object"] *)
Definition isString (v : JSVal) : bool := str_eqb (typeof v) (lit "string").
Definition isObject (v : JSVal) : bool := str_eqb (typeof v) (lit "object").

(** The string behind a value whose [typeof] is ["string"]. *)
Definition stringOf (v : JSVal) : jsstring :=
  match v with JStr s => s | _ => [] end.

(** [ToBoolean v]: what [!v] negates. *)
Definition truthy (v : JSVal) : bool :=
  match v with
  | JUndefined | JNull => false
  | JBool b => b
  | JNum q => negb (Z.eqb (Qnum q) 0)
  | JStr s => match s with [] => false | _ => true end
  | JArr _ | JObj _ => true
  end.

Definition isNullish (v : JSVal) : bool :=
  match v with JUndefined | JNull => true | _ => false end.

Fixpoint lookup (k : jsstring) (props : list (jsstring * JSVal)) : option JSVal :=
  match props with
  | [] => None
  | (k', v) :: rest => if str_eqb k k' then Some v else lookup k rest
  end.

(** [v[k]] for a non-nullish [v] and a key that no built-in prototype
    defines ([text], [date], [startTime], [endTime]): an own property of an
    object, [undefined] on arrays and primitives. *)
Definition getProp (v : JSVal) (k : jsstring) : JSVal :=
  match v with
  | JObj props => match lookup k props with Some x => x | None => JUndefined end
  | _ => JUndefined
  end.

(** [k in v] for an object [v], same keys as [getProp]. *)
Definition hasProp (v : JSVal) (k : jsstring) : bool :=
  match v with
  | JObj props => match lookup k props with Some _ => true | None => false end
  | _ => false
  end.

(** [Object.keys(v)]: the own keys of an object, the indices of an array or
    of a string, nothing for the other primitives. *)
Definition objectKeys (v : JSVal) : list jsstring :=
  match v with
  | JObj props => map fst props
  | JArr items => map decimal (seq 0 (length items))
  | JStr s => map decimal (seq 0 (length s))
  | _ => []
  end.

Definition JStrs (l : list jsstring) : JSVal := JArr (map JStr l).

(** An optional string read from a header or the environment, as a value. *)
Definition ofOption (o : option jsstring) : JSVal :=
  match o with Some s => JStr s | None => JUndefined end.

(* ================================================================== *)
(** * The response object                                              *)
(* ================================================================== *)

(** What [res.end()] or [res.json(v)] sent. The bytes on the wire are the
    serialisation of the value handed to [res.json]. *)
Inductive Body : Type :=
| BodyEmpty
| BodyJson (v : JSVal).

(** The part of [VercelResponse] the handler touches: the headers set so
    far, the status code, and the body once the response has been sent. *)
Record Response : Type := mkResponse {
  resHeaders : list (jsstring * jsstring);
  resStatus : Z;
  resBody : option Body
}.

(** Header names are case-insensitive in Node. *)
Definition lowerAscii (c : N) : N :=
  if (N.leb 65 c && N.leb c 90)%bool then (c + 32)%N else c.

Definition headerKey (name : jsstring) : jsstring := map lowerAscii name.

Definition sameHeader (a b : jsstring) : bool :=
  str_eqb (headerKey a) (headerKey b).

(** [res.setHeader(name, value)] replaces an earlier value of the header. *)
Definition setHeader (name value : jsstring) (res : Response) : Response :=
  mkResponse
    ((name, value)
       :: filter (fun h => negb (sameHeader (fst h) name)) (resHeaders res))
    (resStatus res) (resBody res).

(** [res.getHeader(name)] *)
Definition getHeader (res : Response) (name : jsstring) : option jsstring :=
  match find (fun h => sameHeader (fst h) name) (resHeaders res) with
  | Some h => Some (snd h)
  | None => None
  end.

(** [res.status(code)] *)
Definition status (code : Z) (res : Response) : Response :=
  mkResponse (resHeaders res) code (resBody res).

(** [res.end()] *)
Definition endResponse (res : Response) : Response :=
  mkResponse (resHeaders res) (resStatus res) (Some BodyEmpty).

(** [res.json(v)] *)
Definition json (v : JSVal) (res : Response) : Response :=
  mkResponse (resHeaders res) (resStatus res) (Some (BodyJson v)).

(** The bytes of a sent body under a serialiser ([JSON.stringify]). *)
Definition bodyBytes (stringify : JSVal -> jsstring) (b : Body) : jsstring :=
  match b with
  | BodyEmpty => []
  | BodyJson v => stringify v
  end.

(* ================================================================== *)
(** * utils/error-handler.util.ts                                      *)
(* ================================================================== *)

(** The class of a taxonomy error, as [instanceof] sees it. *)
Inductive ErrorClass : Type :=
| AppErrorClass
| ValidationErrorClass
| MethodNotAllowedErrorClass
| ConfigurationErrorClass
| AIServiceErrorClass.

Definition ErrorClass_eqb (a b : ErrorClass) : bool :=
  match a, b with
  | AppErrorClass, AppErrorClass
  | ValidationErrorClass, ValidationErrorClass
  | MethodNotAllowedErrorClass, MethodNotAllowedErrorClass
  | ConfigurationErrorClass, ConfigurationErrorClass
  | AIServiceErrorClass, AIServiceErrorClass => true
  | _, _ => false
  end.

Definition Context := list (jsstring * JSVal).

(** [class AppError extends Error] *)
Record AppError : Type := mkAppError {
  errorClass : ErrorClass;
  message : jsstring;
  statusCode : Z;
  isOperational : bool;
  context : option Context
}.

(** A thrown value: an error of the taxonomy, or any other [Error]
    (a built-in [TypeError], [SyntaxError], a fault of the model client). *)
Inductive Thrown : Type :=
| Taxonomy (e : AppError)
| Native (name msg : jsstring).

(** Fallible code: [inl] is a thrown value. *)
Definition result (A : Type) : Type := (Thrown + A)%type.

Definition ret {A : Type} (a : A) : result A := inr a.
Definition throw {A : Type} (t : Thrown) : result A := inl t.

Definition bind {A B : Type} (r : result A) (k : A -> result B) : result B :=
  match r with
  | inl t => inl t
  | inr a => k a
  end.

Notation "x <- r ;; k" := (bind r (fun x => k))
  (at level 61, r at next level, right associativity).
Notation "r ;;; k" := (bind r (fun _ => k))
  (at level 61, right associativity).

(** [new ValidationError(message, context)] *)
Definition ValidationError (msg : jsstring) (ctx : option Context) : AppError :=
  mkAppError ValidationErrorClass msg 400 true ctx.

(** [new MethodNotAllowedError(method)] *)
Definition MethodNotAllowedError (method : jsstring) : AppError :=
  mkAppError MethodNotAllowedErrorClass
    (lit "HTTP method " ++ method ++ lit " is not allowed for this endpoint")
    405 true (Some [(lit "method", JStr method)]).

(** [new ConfigurationError(message, context)] *)
Definition ConfigurationError (msg : jsstring) (ctx : option Context) : AppError :=
  mkAppError ConfigurationErrorClass msg 500 false ctx.

(** [new AIServiceError(message, context)] *)
Definition AIServiceError (msg : jsstring) (ctx : option Context) : AppError :=
  mkAppError AIServiceErrorClass msg 500 true ctx.

(** [error.message] of any thrown [Error]. *)
Definition messageOf (t : Thrown) : jsstring :=
  match t with
  | Taxonomy e => message e
  | Native _ msg => msg
  end.

(** [isOperationalError]: "safe to expose to client". *)
Definition isOperationalError (error : Thrown) : bool :=
  match error with
  | Taxonomy e => isOperational e
  | Native _ _ => false
  end.

(** The marker [logError] writes in front of the structured record. *)
Definition logError (error : Thrown) : jsstring :=
  match error with
  | Taxonomy e =>
      if negb (isOperational e) then lit "[CRITICAL ERROR]" else lit "[ERROR]"
  | Native _ _ => lit "[ERROR]"
  end.

Definition GENERIC_MESSAGE : jsstring :=
  lit "An unexpected error occurred while processing your request".

(** [process.env.NODE_ENV !== "production"] *)
Definition notProduction (NODE_ENV : option jsstring) : bool :=
  match NODE_ENV with
  | Some v => negb (str_eqb v (lit "production"))
  | None => true
  end.

(** [buildErrorResponse]: the object handed to [res.json]. *)
Definition buildErrorResponse (NODE_ENV : option jsstring) (error : Thrown)
  : JSVal :=
  match error with
  | Taxonomy e =>
      JObj ([(lit "error", JStr (message e));
             (lit "statusCode", JInt (statusCode e))]
            ++ match context e with
               | Some ctx =>
                   if notProduction NODE_ENV
                   then [(lit "context", JObj ctx)] else []
               | None => []
               end)
  | Native _ _ =>
      JObj [(lit "error", JStr GENERIC_MESSAGE);
            (lit "statusCode", JInt 500)]
  end.

(** [handleError]: returns the response and the log marker written. *)
Definition handleError (NODE_ENV : option jsstring) (error : Thrown)
    (res : Response) : Response * jsstring :=
  let marker := logError error in
  let code := match error with Taxonomy e => statusCode e | Native _ _ => 500 end in
  let response := buildErrorResponse NODE_ENV error in
  (json response (status code res), marker).

(* ================================================================== *)
(** * config/environment.config.ts                                     *)
(* ================================================================== *)

(** The variables of [process.env] the program reads. *)
Record Env : Type := mkEnv {
  env_GEMINI_API_KEY : option jsstring;
  env_ALLOWED_ORIGINS : option jsstring;
  env_AI_MODEL_NAME : option jsstring;
  env_NODE_ENV : option jsstring
}.

Record AppConfig : Type := mkAppConfig {
  GEMINI_API_KEY : jsstring;
  ALLOWED_ORIGINS : list jsstring;
  AI_MODEL_NAME : jsstring
}.

Definition DEFAULT_ALLOWED_ORIGINS : list jsstring :=
  [lit "https://dmaman86.github.io"; lit "http://localhost:5173"].

Definition DEFAULT_MODEL_NAME : jsstring := lit "gemini-1.5-flash-001".

(** [!s || s.trim() === ""] for a string [s]. *)
Definition emptyOrBlank (s : jsstring) : bool :=
  negb (truthy (JStr s)) || isBlank s.

(** The same test on a variable that may be unset. *)
Definition unsetOrBlank (v : option jsstring) : bool :=
  match v with
  | None => true
  | Some s => emptyOrBlank s
  end.

Definition API_KEY_REQUIRED : jsstring :=
  lit "GEMINI_API_KEY environment variable is required but not set. "
  ++ lit "Please configure your API key in the environment.".

Definition getApiKey (env : Env) : result jsstring :=
  match env_GEMINI_API_KEY env with
  | None => throw (Native (lit "Error") API_KEY_REQUIRED)
  | Some apiKey =>
      if emptyOrBlank apiKey
      then throw (Native (lit "Error") API_KEY_REQUIRED)
      else ret (trim apiKey)
  end.

Definition COMMA : N := 44%N.

Definition getAllowedOrigins (env : Env) : list jsstring :=
  match env_ALLOWED_ORIGINS env with
  | None => DEFAULT_ALLOWED_ORIGINS
  | Some originsEnv =>
      if emptyOrBlank originsEnv then DEFAULT_ALLOWED_ORIGINS
      else filter (fun origin => Nat.ltb 0 (length origin))
             (map trim (split COMMA originsEnv))
  end.

Definition getModelName (env : Env) : jsstring :=
  match env_AI_MODEL_NAME env with
  | None => DEFAULT_MODEL_NAME
  | Some modelName =>
      if emptyOrBlank modelName then DEFAULT_MODEL_NAME else trim modelName
  end.

(** [buildConfig]: the object literal evaluates [getApiKey()] first. *)
Definition buildConfig (env : Env) : result AppConfig :=
  apiKey <- getApiKey env ;;
  ret (mkAppConfig apiKey (getAllowedOrigins env) (getModelName env)).

(* ================================================================== *)
(** * The request object                                               *)
(* ================================================================== *)

(** The part of [VercelRequest] the handler reads. *)
Record VercelRequest : Type := mkRequest {
  method : option jsstring;
  headers_origin : option jsstring;
  headers_content_type : option jsstring;
  body : JSVal
}.

(* ================================================================== *)
(** * middleware/cors.middleware.ts                                    *)
(* ================================================================== *)

Definition CORS_CREDENTIALS : jsstring := lit "Access-Control-Allow-Credentials".
Definition CORS_METHODS : jsstring := lit "Access-Control-Allow-Methods".
Definition CORS_HEADERS : jsstring := lit "Access-Control-Allow-Headers".
Definition CORS_ORIGIN : jsstring := lit "Access-Control-Allow-Origin".

Definition ALLOWED_METHODS : jsstring := lit "GET,OPTIONS,PATCH,DELETE,POST,PUT".

(** [parts.join(sep)] *)
Fixpoint join (sep : jsstring) (parts : list jsstring) : jsstring :=
  match parts with
  | [] => []
  | [p] => p
  | p :: rest => p ++ sep ++ join sep rest
  end.

Definition ALLOWED_HEADERS : jsstring :=
  join (lit ", ")
    [lit "X-CSRF-Token"; lit "X-Requested-With"; lit "Accept";
     lit "Accept-Version"; lit "Content-Length"; lit "Content-MD5";
     lit "Content-Type"; lit "Date"; lit "X-Api-Version"].

Record CORSConfig : Type := mkCORSConfig {
  allowedOrigins : list jsstring
}.

(** [allowedOrigins.includes(origin)] *)
Definition includes (l : list jsstring) (s : jsstring) : bool :=
  existsb (fun x => str_eqb x s) l.

Definition validateOrigin (origin : option jsstring)
    (allowed : list jsstring) : jsstring :=
  match origin with
  | None => lit "null"
  | Some o =>
      if negb (truthy (JStr o)) then lit "null"
      else if includes allowed o then o
      else lit "null"
  end.

Definition setCORSHeaders (res : Response) (origin : jsstring) : Response :=
  let res := setHeader CORS_ORIGIN origin res in
  let res := setHeader CORS_CREDENTIALS (lit "true") res in
  let res := setHeader CORS_METHODS ALLOWED_METHODS res in
  setHeader CORS_HEADERS ALLOWED_HEADERS res.

(** [req.method === m] *)
Definition methodIs (req : VercelRequest) (m : jsstring) : bool :=
  match method req with
  | Some m' => str_eqb m' m
  | None => false
  end.

(** [corsMiddleware]: the boolean tells the caller to stop. *)
Definition corsMiddleware (req : VercelRequest) (res : Response)
    (config : CORSConfig) : bool * Response :=
  let requestOrigin := headers_origin req in
  let validatedOrigin := validateOrigin requestOrigin (allowedOrigins config) in
  let res := setCORSHeaders res validatedOrigin in
  if methodIs req (lit "OPTIONS")
  then (true, endResponse (status 200 res))
  else (false, res).

Definition createCORSMiddleware (config : CORSConfig)
  : VercelRequest -> Response -> bool * Response :=
  fun req res => corsMiddleware req res config.

(* ================================================================== *)
(** * middleware/validation.middleware.ts                              *)
(* ================================================================== *)

Definition validateMethod (req : VercelRequest) : result unit :=
  if negb (methodIs req (lit "POST"))
  then throw (Taxonomy (MethodNotAllowedError
                (match method req with
                 | Some m => if truthy (JStr m) then m else lit "UNKNOWN"
                 | None => lit "UNKNOWN"
                 end)))
  else ret tt.

Definition validateBody (req : VercelRequest) : result unit :=
  if negb (truthy (body req))
  then throw (Taxonomy (ValidationError (lit "Request body is required")
                (Some [(lit "contentType", ofOption (headers_content_type req))])))
  else if negb (isObject (body req))
  then throw (Taxonomy (ValidationError (lit "Request body must be a JSON object")
                (Some [(lit "bodyType", JStr (typeof (body req)))])))
  else ret tt.

(** Reading or destructuring a property of [undefined] or [null] is a
    [TypeError] of the engine. *)
Definition nullishTypeError (before : jsstring) (v : JSVal)
    (after : jsstring) : Thrown :=
  Native (lit "TypeError")
    (before ++ match v with JNull => lit "null" | _ => lit "undefined" end
       ++ after).


Definition validateRequiredFields (body : JSVal) : result unit :=
  if isNullish body
  then throw (nullishTypeError
                (lit "Cannot destructure property 'text' of 'body' as it is ")
                body (lit "."))
  else
  let text := getProp body (lit "text") in
  if negb (truthy text)
  then throw (Taxonomy (ValidationError (lit "Field 'text' is required")
                (Some [(lit "providedFields", JStrs (objectKeys body));
                       (lit "missingField", JStr (lit "text"))])))
  else if negb (isString text)
  then throw (Taxonomy (ValidationError (lit "Field 'text' must be a string")
                (Some [(lit "field", JStr (lit "text"));
                       (lit "providedType", JStr (typeof text));
                       (lit "expectedType", JStr (lit "string"))])))
  else if isBlank (stringOf text)
  then throw (Taxonomy (ValidationError (lit "Field 'text' cannot be empty")
                (Some [(lit "field", JStr (lit "text"));
                       (lit "length", JLen (stringOf text))])))
  else ret tt.

Definition isParseRequest (obj : JSVal) : bool :=
  if negb (truthy obj) || negb (isObject obj)
  then false
  else hasProp obj (lit "text")
       && isString (getProp obj (lit "text"))
       && Nat.ltb 0 (length (trim (stringOf (getProp obj (lit "text"))))).

Definition validateRequest (req : VercelRequest) : result JSVal :=
  validateMethod req ;;;
  validateBody req ;;;
  validateRequiredFields (body req) ;;;
  if negb (isParseRequest (body req))
  then throw (Taxonomy (ValidationError
                (lit "Request body does not match expected structure")
                (Some [(lit "body", body req)])))
  else ret (body req).

Definition validateTextField (req : VercelRequest) : result jsstring :=
  let body := body req in
  if isNullish body
  then throw (nullishTypeError (lit "Cannot read properties of ") body
                (lit " (reading 'text')"))
  else
  let text := getProp body (lit "text") in
  if negb (truthy text)
  then throw (Taxonomy (ValidationError (lit "Field 'text' is required") None))
  else if negb (isString text)
  then throw (Taxonomy (ValidationError (lit "Field 'text' must be a string")
                (Some [(lit "providedType", JStr (typeof text))])))
  else if isBlank (stringOf text)
  then throw (Taxonomy (ValidationError (lit "Field 'text' cannot be empty") None))
  else ret (stringOf text).

(* ================================================================== *)
(** * services/ai-parser.service.ts                                    *)
(* ================================================================== *)

Record AIParserConfig : Type := mkAIParserConfig {
  apiKey : jsstring;
  modelName : jsstring
}.

(** An instance of [AIParserService]: the key its client was built with and
    the model name. *)
Record AIParserService : Type := mkAIParserService {
  genAI : jsstring;
  this_modelName : jsstring
}.

(** The constructor. *)
Definition newAIParserService (config : AIParserConfig) : result AIParserService :=
  if emptyOrBlank (apiKey config)
  then throw (Taxonomy (ConfigurationError
                (lit "Invalid API key provided to AIParserService")
                (Some [(lit "provided", JBool (truthy (JStr (apiKey config))))])))
  else if emptyOrBlank (modelName config)
  then throw (Taxonomy (ConfigurationError
                (lit "Invalid model name provided to AIParserService")
                (Some [(lit "provided", JBool (truthy (JStr (modelName config))))])))
  else ret (mkAIParserService (apiKey config) (modelName config)).

Definition createAIParserService (apiKey modelName : jsstring)
  : result AIParserService :=
  newAIParserService (mkAIParserConfig apiKey modelName).

Definition NL : jsstring := [10%N].
Definition QUOTE : jsstring := [34%N].

(** [buildPrompt]: the template literal, trimmed as a whole. *)
Definition buildPrompt (currentYear : nat) (text : jsstring) : jsstring :=
  trim
    (NL ++ lit "Analyze the provided text and extract work shifts." ++ NL
     ++ NL
     ++ lit "Current Context: Year " ++ decimal currentYear
     ++ lit " (use this year if the year is missing in the date)." ++ NL
     ++ NL
     ++ lit "Instructions:" ++ NL
     ++ lit "- Extract all shift information including dates, start times, and end times" ++ NL
     ++ lit "- Normalize dates to YYYY-MM-DD format" ++ NL
     ++ lit "- Normalize times to HH:mm format (24-hour)" ++ NL
     ++ lit "- If year is missing, use " ++ decimal currentYear ++ NL
     ++ lit "- Return data strictly as a JSON array matching the schema" ++ NL
     ++ NL
     ++ lit "Input text: " ++ QUOTE ++ text ++ QUOTE ++ NL
     ++ lit "    ").

Definition requiredFields : list jsstring :=
  [lit "date"; lit "startTime"; lit "endTime"].

(** The inner loop of [validateShifts] over the required fields. *)
Fixpoint validateFields (i : nat) (shift : JSVal) (fields : list jsstring)
  : result unit :=
  match fields with
  | [] => ret tt
  | field :: rest =>
      if negb (truthy (getProp shift field)) || negb (isString (getProp shift field))
      then throw (Taxonomy (AIServiceError
                    (lit "Invalid shift at index " ++ decimal i
                     ++ lit ": missing or invalid field '" ++ field ++ lit "'")
                    (Some [(lit "shiftIndex", JInt (Z.of_nat i));
                           (lit "field", JStr field);
                           (lit "provided", getProp shift field);
                           (lit "type", JStr (typeof (getProp shift field)))])))
      else validateFields i shift rest
  end.

(** The body of the outer loop, for the element at index [i]. *)
Definition validateShift (i : nat) (shift : JSVal) : result unit :=
  if negb (truthy shift) || negb (isObject shift)
  then throw (Taxonomy (AIServiceError
                (lit "Invalid shift at index " ++ decimal i ++ lit ": not an object")
                (Some [(lit "shiftIndex", JInt (Z.of_nat i));
                       (lit "shiftType", JStr (typeof shift))])))
  else validateFields i shift requiredFields.

Fixpoint validateShiftsFrom (i : nat) (shifts : list JSVal) : result unit :=
  match shifts with
  | [] => ret tt
  | shift :: rest => validateShift i shift ;;; validateShiftsFrom (S i) rest
  end.

Definition validateShifts (shifts : list JSVal) : result unit :=
  validateShiftsFrom 0 shifts.

(** What the model client gives back for a prompt: the text of the
    response, or a fault of its own thrown by the call (an [Error] of the
    client library, never an instance of this program's error classes).
    Only a call that settles is described: the handler awaits the model
    without a timeout, and a call that never settles sends no response at
    all, so every statement below is about runs whose call settles or is
    not made. *)
Inductive ModelReply : Type :=
| ReplyText (responseText : jsstring)
| ReplyThrows (name msg : jsstring).

(** [error instanceof AIServiceError] *)
Definition isAIServiceError (t : Thrown) : bool :=
  match t with
  | Taxonomy e => ErrorClass_eqb (errorClass e) AIServiceErrorClass
  | Native _ _ => false
  end.

(** [text?.length || 0] *)
Definition lengthOr0 (text : JSVal) : JSVal :=
  match text with
  | JStr s => JLen s
  | _ => JInt 0
  end.

(** Components the entry point may call, in the order they were called. *)
Inductive Event : Type :=
| CallValidateRequest
| CallParseShifts (text : JSVal)
| CallGenerateContent (prompt : jsstring)
| LogError (marker : jsstring).

Section Runtime.

(** [JSON.parse]: the parsed value, or the message of the [SyntaxError]. *)
Variable JSON_parse : jsstring -> jsstring + JSVal.

(** The external model behind [generateContent] and [response.text()]. *)
Variable generateContent : AIParserService -> jsstring -> ModelReply.

(** [new Date().getFullYear()] *)
Variable currentYear : nat.

(** [process.env.NODE_ENV] *)
Variable NODE_ENV : option jsstring.

(** The [try] block of [parseShifts], after the prompt was built. *)
Definition interpretReply (this : AIParserService) (reply : ModelReply)
  : result (list JSVal) :=
  match reply with
  | ReplyThrows name msg => throw (Native name msg)
  | ReplyText responseText =>
      if emptyOrBlank responseText
      then throw (Taxonomy (AIServiceError (lit "AI model returned empty response")
                    (Some [(lit "modelName", JStr (this_modelName this))])))
      else match JSON_parse responseText with
      | inl parseError =>
          throw (Taxonomy (AIServiceError (lit "Failed to parse AI response as JSON")
                   (Some [(lit "modelName", JStr (this_modelName this));
                          (lit "responsePreview", JStr (substring0 200 responseText));
                          (lit "parseError", JStr parseError)])))
      | inr parsedShifts =>
          match parsedShifts with
          | JArr shifts =>
              validateShifts shifts ;;;
              ret shifts
          | _ =>
              throw (Taxonomy (AIServiceError (lit "AI response is not an array")
                       (Some [(lit "modelName", JStr (this_modelName this));
                              (lit "responseType", JStr (typeof parsedShifts))])))
          end
      end
  end.

(** The [catch] block of [parseShifts]. *)
Definition rethrowOrWrap (this : AIParserService) (r : result (list JSVal))
  : result (list JSVal) :=
  match r with
  | inr shifts => ret shifts
  | inl error =>
      if isAIServiceError error then throw error
      else throw (Taxonomy (AIServiceError
                    (lit "Failed to generate shifts from AI service")
                    (Some [(lit "modelName", JStr (this_modelName this));
                           (lit "originalError", JStr (messageOf error))])))
  end.

(** [parseShifts]: the outcome and the prompts sent to the model. *)
Definition parseShifts (this : AIParserService) (text : JSVal)
  : result (list JSVal) * list jsstring :=
  if negb (truthy text)
  then (throw (Taxonomy (AIServiceError (lit "Cannot parse empty text")
                 (Some [(lit "inputLength", lengthOr0 text)]))), [])
  else if negb (isString text)
  then (throw (Native (lit "TypeError") (lit "text.trim is not a function")), [])
  else if isBlank (stringOf text)
  then (throw (Taxonomy (AIServiceError (lit "Cannot parse empty text")
                 (Some [(lit "inputLength", lengthOr0 text)]))), [])
  else
    let prompt := buildPrompt currentYear (stringOf text) in
    (rethrowOrWrap this (interpretReply this (generateContent this prompt)),
     [prompt]).

(* ---------------------------------------------------------------- *)
(** ** parse.ts                                                      *)
(* ---------------------------------------------------------------- *)

(** The [try] block of the handler: the shifts or the thrown value, and
    the calls made on the way. *)
Definition pipeline (config : AppConfig) (req : VercelRequest)
  : result (list JSVal) * list Event :=
  match validateRequest req with
  | inl t => (throw t, [CallValidateRequest])
  | inr parsed =>
      let text := getProp parsed (lit "text") in
      match createAIParserService (GEMINI_API_KEY config) (AI_MODEL_NAME config) with
      | inl t => (throw t, [CallValidateRequest])
      | inr aiParser =>
          let '(shifts, prompts) := parseShifts aiParser text in
          (shifts,
           [CallValidateRequest; CallParseShifts text]
             ++ map CallGenerateContent prompts)
      end
  end.

(** [handler]: the final response and the trace of calls. *)
Definition handler (config : AppConfig) (req : VercelRequest) (res : Response)
  : Response * list Event :=
  let '(stop, res) :=
    corsMiddleware req res (mkCORSConfig (ALLOWED_ORIGINS config)) in
  if stop then (res, [])
  else
    match pipeline config req with
    | (inr shifts, calls) => (json (JArr shifts) (status 200 res), calls)
    | (inl error, calls) =>
        let '(res, marker) := handleError NODE_ENV error res in
        (res, calls ++ [LogError marker])
    end.

End Runtime.

(* ================================================================== *)
(** * Error values and predicates used in the statements               *)
(* ================================================================== *)

Definition TEXT : jsstring := lit "text".

(** The three errors of [validateRequiredFields]. *)
Definition textRequiredError (body : JSVal) : AppError :=
  ValidationError (lit "Field 'text' is required")
    (Some [(lit "providedFields", JStrs (objectKeys body));
           (lit "missingField", JStr (lit "text"))]).

Definition textNotStringError (text : JSVal) : AppError :=
  ValidationError (lit "Field 'text' must be a string")
    (Some [(lit "field", JStr (lit "text"));
           (lit "providedType", JStr (typeof text));
           (lit "expectedType", JStr (lit "string"))]).

Definition textEmptyError (s : jsstring) : AppError :=
  ValidationError (lit "Field 'text' cannot be empty")
    (Some [(lit "field", JStr (lit "text")); (lit "length", JLen s)]).

Definition thrownMessage {A : Type} (r : result A) : jsstring :=
  match r with
  | inl t => messageOf t
  | inr _ => []
  end.

(** The two errors of [validateShifts] for the element at index [i]. *)
Definition shiftNotObjectError (i : nat) (shift : JSVal) : AppError :=
  AIServiceError
    (lit "Invalid shift at index " ++ decimal i ++ lit ": not an object")
    (Some [(lit "shiftIndex", JInt (Z.of_nat i));
           (lit "shiftType", JStr (typeof shift))]).

Definition shiftFieldError (i : nat) (shift : JSVal) (field : jsstring) : AppError :=
  AIServiceError
    (lit "Invalid shift at index " ++ decimal i
     ++ lit ": missing or invalid field '" ++ field ++ lit "'")
    (Some [(lit "shiftIndex", JInt (Z.of_nat i));
           (lit "field", JStr field);
           (lit "provided", getProp shift field);
           (lit "type", JStr (typeof (getProp shift field)))]).

(** A value that is a string. *)
Definition isStringValue (v : JSVal) : Prop := exists s, v = JStr s.

(** A value that is a string with at least one code unit. *)
Definition isNonEmptyString (v : JSVal) : Prop :=
  exists s, v = JStr s /\ s <> [].

(** A non-null object: what [shift && typeof shift === "object"] accepts. *)
Definition isNonNullObject (v : JSVal) : Prop :=
  (exists items, v = JArr items) \/ (exists props, v = JObj props).

(** An element the local validation accepts. *)
Definition wellFormedShift (shift : JSVal) : Prop :=
  isNonNullObject shift
  /\ forall field, In field requiredFields -> isNonEmptyString (getProp shift field).

(** The error of [parseShifts] for an input that is empty or blank. *)
Definition emptyTextError (inputLength : Z) : AppError :=
  AIServiceError (lit "Cannot parse empty text")
    (Some [(lit "inputLength", JInt inputLength)]).

(** The status code [handleError] answers with. *)
Definition statusOf (error : Thrown) : Z :=
  match error with
  | Taxonomy e => statusCode e
  | Native _ _ => 500
  end.

(** A success response: status 200 with a JSON body. *)
Definition success (res : Response) : Prop :=
  resStatus res = 200 /\ exists v, resBody res = Some (BodyJson v).

(** The bytes sent, if the response was sent. *)
Definition sentBytes (stringify : JSVal -> jsstring) (res : Response)
  : option jsstring :=
  option_map (bodyBytes stringify) (resBody res).

(** Two thrown values that differ at most in their diagnostic context. *)
Definition sameErrorUpToContext (a b : Thrown) : Prop :=
  match a, b with
  | Taxonomy x, Taxonomy y =>
      errorClass x = errorClass y /\ message x = message y
      /\ statusCode x = statusCode y /\ isOperational x = isOperational y
  | Native n m, Native n' m' => n = n' /\ m = m'
  | _, _ => False
  end.

(* ================================================================== *)
(** * A sample run: the round trip of the README                       *)
(* ================================================================== *)

Definition quoted (s : string) : jsstring := QUOTE ++ lit s ++ QUOTE.

(** The text of a model response holding one shift. *)
Definition sampleReply : jsstring :=
  lit "[{" ++ quoted "date" ++ lit ":" ++ quoted "2026-01-12" ++ lit ","
  ++ quoted "startTime" ++ lit ":" ++ quoted "09:00" ++ lit ","
  ++ quoted "endTime" ++ lit ":" ++ quoted "17:00" ++ lit "}]".

Definition sampleShifts : list JSVal :=
  [JObj [(lit "date", JStr (lit "2026-01-12"));
         (lit "startTime", JStr (lit "09:00"));
         (lit "endTime", JStr (lit "17:00"))]].

(** [JSON.parse] at the sample reply; any other text is taken as
    malformed here. *)
Definition sampleParse (raw : jsstring) : jsstring + JSVal :=
  if str_eqb raw sampleReply then inr (JArr sampleShifts)
  else inl (lit "Unexpected token").

(** A model that answers every prompt with the sample reply. *)
Definition sampleModel (_ : AIParserService) (_ : jsstring) : ModelReply :=
  ReplyText sampleReply.

Definition sampleConfig : AppConfig :=
  mkAppConfig (lit "test-key") DEFAULT_ALLOWED_ORIGINS DEFAULT_MODEL_NAME.

Definition sampleRequest : VercelRequest :=
  mkRequest (Some (lit "POST")) (Some (lit "http://localhost:5173"))
    (Some (lit "application/json"))
    (JObj [(lit "text", JStr (lit "I work Monday 9am to 5pm"))]).

Definition freshResponse : Response := mkResponse [] 200 None.

(** A preflight request from an origin that is not on the list. *)
Definition samplePreflight : VercelRequest :=
  mkRequest (Some (lit "OPTIONS")) (Some (lit "https://example.com")) None
    JUndefined.

(** The same text sent from the other default origin. *)
Definition sampleRequest' : VercelRequest :=
  mkRequest (Some (lit "POST")) (Some (lit "https://dmaman86.github.io"))
    None
    (JObj [(lit "text", JStr (lit "I work Monday 9am to 5pm"));
           (lit "extra", JBool true)]).

(** [JSON.stringify] at the sample shifts: the sample reply. *)
Definition sampleStringify (_ : JSVal) : jsstring := sampleReply.

(* ================================================================== *)
(** * Further definitions of the sources and of the statements         *)
(* ================================================================== *)

(** [isConfigValid] of [environment.config.ts], on a built configuration:
    [!!(config.GEMINI_API_KEY && config.ALLOWED_ORIGINS.length > 0 &&
    config.AI_MODEL_NAME)]. *)
Definition isConfigValid (config : AppConfig) : bool :=
  truthy (JStr (GEMINI_API_KEY config))
  && Nat.ltb 0 (length (ALLOWED_ORIGINS config))
  && truthy (JStr (AI_MODEL_NAME config)).

(** A string that does not start with white space. *)
Definition noLeadingSpace (s : jsstring) : Prop :=
  match s with
  | [] => True
  | c :: _ => isWhiteSpace c = false
  end.

(** A string made of white space only. *)
Definition allWhiteSpace (s : jsstring) : Prop :=
  Forall (fun c => isWhiteSpace c = true) s.

(** The [error] field of the body [buildErrorResponse] builds. *)
Definition clientMessage (error : Thrown) : jsstring :=
  match error with
  | Taxonomy e => message e
  | Native _ _ => GENERIC_MESSAGE
  end.

(** The error of the [catch] block of [parseShifts] for a fault of the
    model client. *)
Definition wrappedModelError (this : AIParserService) (msg : jsstring) : AppError :=
  AIServiceError (lit "Failed to generate shifts from AI service")
    (Some [(lit "modelName", JStr (this_modelName this));
           (lit "originalError", JStr msg)]).

(** The error of [parseShifts] for a response that is not JSON. *)
Definition jsonParseError (this : AIParserService) (responseText parseError : jsstring)
  : AppError :=
  AIServiceError (lit "Failed to parse AI response as JSON")
    (Some [(lit "modelName", JStr (this_modelName this));
           (lit "responsePreview", JStr (substring0 200 responseText));
           (lit "parseError", JStr parseError)]).

(** The part of the prompt before the user's text. *)
Definition promptHead (currentYear : nat) : jsstring :=
  lit "Analyze the provided text and extract work shifts." ++ NL
  ++ NL
  ++ lit "Current Context: Year " ++ decimal currentYear
  ++ lit " (use this year if the year is missing in the date)." ++ NL
  ++ NL
  ++ lit "Instructions:" ++ NL
  ++ lit "- Extract all shift information including dates, start times, and end times" ++ NL
  ++ lit "- Normalize dates to YYYY-MM-DD format" ++ NL
  ++ lit "- Normalize times to HH:mm format (24-hour)" ++ NL
  ++ lit "- If year is missing, use " ++ decimal currentYear ++ NL
  ++ lit "- Return data strictly as a JSON array matching the schema" ++ NL
  ++ NL
  ++ lit "Input text: " ++ QUOTE.

(** The events of a trace that reach the orchestrator or the model. *)
Definition reachesOrchestrator (e : Event) : bool :=
  match e with
  | CallParseShifts _ | CallGenerateContent _ => true
  | _ => false
  end.

(** A model whose client always fails, and a runtime that parses nothing. *)
Definition failingModel (_ : AIParserService) (_ : jsstring) : ModelReply :=
  ReplyThrows (lit "Error") (lit "fetch failed").

Definition neverParses (_ : jsstring) : jsstring + JSVal :=
  inl (lit "Unexpected token").

Definition sampleService : AIParserService :=
  mkAIParserService (lit "test-key") DEFAULT_MODEL_NAME.

(** [req.method || "UNKNOWN"] *)
Definition methodOrUnknown (req : VercelRequest) : jsstring :=
  match method req with
  | Some m => if truthy (JStr m) then m else lit "UNKNOWN"
  | None => lit "UNKNOWN"
  end.

(** The message of the type guard of step 4 of [validateRequest]. *)
Definition STRUCTURE_MESSAGE : jsstring :=
  lit "Request body does not match expected structure".

(** A request with a method the endpoint does not serve. *)
Definition sampleGet : VercelRequest :=
  mkRequest (Some (lit "GET")) None None JUndefined.

(** A POST request whose [text] is a number. *)
Definition sampleBadBody : VercelRequest :=
  mkRequest (Some (lit "POST")) None (Some (lit "application/json"))
    (JObj [(lit "text", JInt 42)]).

(** A fault of the orchestrator: an AIServiceError as its constructor
    builds it. *)
Definition isAIServiceFault (t : Thrown) : Prop :=
  exists e, t = Taxonomy e /\ errorClass e = AIServiceErrorClass
            /\ statusCode e = 500 /\ isOperational e = true.

(** [a] is a prefix of [b]. *)
Definition isPrefixOf (a b : jsstring) : Prop := exists rest, b = a ++ rest.

(* ================================================================== *)
(** * Properties of the built-ins                                      *)
(* ================================================================== *)

Lemma str_eqb_eq (a b : jsstring) : str_eqb a b = true <-> a = b.
Proof.
  revert b; induction a as [|x a IH]; intros [|y b]; simpl;
    try (split; [discriminate | discriminate]); try tauto.
  rewrite andb_true_iff, N.eqb_eq, IH.
  split; [intros [-> ->]; reflexivity | intros E; inversion E; auto].
Qed.

Lemma str_eqb_refl (a : jsstring) : str_eqb a a = true.
Proof. apply str_eqb_eq; reflexivity. Qed.

Lemma str_eqb_neq (a b : jsstring) : str_eqb a b = false <-> a <> b.
Proof.
  rewrite <- str_eqb_eq. destruct (str_eqb a b); split; congruence.
Qed.

Lemma str_eqb_nil (s : jsstring) : str_eqb s [] = true <-> s = [].
Proof. apply str_eqb_eq. Qed.

Lemma includes_In (l : list jsstring) (s : jsstring) :
  includes l s = true <-> In s l.
Proof.
  unfold includes. rewrite existsb_exists. split.
  - intros (x & Hx & E). apply str_eqb_eq in E. subst; assumption.
  - intros H. exists s. split; [assumption | apply str_eqb_refl].
Qed.

Lemma includes_not_In (l : list jsstring) (s : jsstring) :
  includes l s = false <-> ~ In s l.
Proof.
  rewrite <- includes_In. destruct (includes l s); split; congruence.
Qed.

Lemma trim_nil : trim [] = [].
Proof. reflexivity. Qed.

Lemma isBlank_trim (s : jsstring) : isBlank s = true <-> trim s = [].
Proof. apply str_eqb_nil. Qed.

Lemma isBlank_false_trim (s : jsstring) : isBlank s = false <-> trim s <> [].
Proof. apply str_eqb_neq. Qed.

(** [!s || s.trim() === ""] is the blank test: the empty string is blank. *)
Lemma emptyOrBlank_isBlank (s : jsstring) : emptyOrBlank s = isBlank s.
Proof. destruct s; reflexivity. Qed.

Lemma not_blank_not_empty (s : jsstring) : isBlank s = false -> s <> [].
Proof. intros H ->. discriminate. Qed.

Lemma truthy_JStr (s : jsstring) : truthy (JStr s) = true <-> s <> [].
Proof. destruct s; simpl; split; congruence. Qed.

Lemma isString_JStr (v : JSVal) : isString v = true <-> exists s, v = JStr s.
Proof.
  destruct v; unfold isString; simpl; split;
    try discriminate; try (intros [s E]; discriminate); eauto.
Qed.

Lemma isObject_cases (v : JSVal) :
  truthy v = true -> isObject v = true ->
  (exists items, v = JArr items) \/ (exists props, v = JObj props).
Proof.
  destruct v; unfold isObject; simpl; try discriminate; eauto.
Qed.

(* ================================================================== *)
(** * Properties of the response object                                *)
(* ================================================================== *)

Lemma sameHeader_refl (n : jsstring) : sameHeader n n = true.
Proof. apply str_eqb_refl. Qed.

Lemma sameHeader_trans_false (a b c : jsstring) :
  sameHeader a b = true -> sameHeader b c = false -> sameHeader a c = false.
Proof.
  unfold sameHeader. rewrite str_eqb_eq, !str_eqb_neq. congruence.
Qed.

Lemma find_filter_other (n m : jsstring) (hs : list (jsstring * jsstring)) :
  sameHeader n m = false ->
  find (fun h => sameHeader (fst h) m)
       (filter (fun h => negb (sameHeader (fst h) n)) hs)
  = find (fun h => sameHeader (fst h) m) hs.
Proof.
  intros Hnm. induction hs as [|h hs IH]; simpl; [reflexivity|].
  destruct (sameHeader (fst h) n) eqn:E; simpl.
  - rewrite (sameHeader_trans_false _ _ _ E Hnm). exact IH.
  - destruct (sameHeader (fst h) m); [reflexivity | exact IH].
Qed.

Lemma getHeader_setHeader (n v m : jsstring) (res : Response) :
  getHeader (setHeader n v res) m
  = if sameHeader n m then Some v else getHeader res m.
Proof.
  unfold getHeader, setHeader; simpl.
  destruct (sameHeader n m) eqn:E; [reflexivity|].
  rewrite find_filter_other by exact E. reflexivity.
Qed.

(* ================================================================== *)
(** * The CORS gate                                                    *)
(* ================================================================== *)

Lemma setCORSHeaders_origin (res : Response) (origin : jsstring) :
  getHeader (setCORSHeaders res origin) CORS_ORIGIN = Some origin.
Proof.
  unfold setCORSHeaders. rewrite !getHeader_setHeader.
  replace (sameHeader CORS_HEADERS CORS_ORIGIN) with false by (vm_compute; reflexivity).
  replace (sameHeader CORS_METHODS CORS_ORIGIN) with false by (vm_compute; reflexivity).
  replace (sameHeader CORS_CREDENTIALS CORS_ORIGIN) with false by (vm_compute; reflexivity).
  rewrite sameHeader_refl. reflexivity.
Qed.

(** The header the gate sets, whatever the method. *)
Lemma corsMiddleware_origin (req : VercelRequest) (res : Response)
    (config : CORSConfig) :
  getHeader (snd (corsMiddleware req res config)) CORS_ORIGIN
  = Some (validateOrigin (headers_origin req) (allowedOrigins config)).
Proof.
  unfold corsMiddleware.
  destruct (methodIs req (lit "OPTIONS")); simpl.
  - exact (setCORSHeaders_origin res _).
  - exact (setCORSHeaders_origin res _).
Qed.

(** The tokens [split] returns, trimmed and filtered, are never empty. *)
Lemma getAllowedOrigins_nonempty (env : Env) :
  ~ In [] (getAllowedOrigins env).
Proof.
  unfold getAllowedOrigins.
  assert (D : ~ In [] DEFAULT_ALLOWED_ORIGINS).
  { unfold DEFAULT_ALLOWED_ORIGINS. simpl. intros [H | [H | []]]; discriminate. }
  destruct (env_ALLOWED_ORIGINS env) as [o|]; [|exact D].
  destruct (emptyOrBlank o); [exact D|].
  intros H. apply filter_In in H. destruct H as [_ H]. discriminate.
Qed.

Lemma validateOrigin_member (o : jsstring) (allowed : list jsstring) :
  In o allowed -> o <> [] -> validateOrigin (Some o) allowed = o.
Proof.
  intros Hin Hne. unfold validateOrigin.
  destruct o as [|c o]; [congruence|]. simpl.
  apply includes_In in Hin. rewrite Hin. reflexivity.
Qed.

Lemma validateOrigin_stranger (o : jsstring) (allowed : list jsstring) :
  ~ In o allowed -> validateOrigin (Some o) allowed = lit "null".
Proof.
  intros Hnin. unfold validateOrigin.
  apply includes_not_In in Hnin. rewrite Hnin.
  destruct (negb (truthy (JStr o))); reflexivity.
Qed.

(** C1 as stated fails: read as an equivalence, "the header equals the
    origin exactly when the origin is on the list" breaks for a request
    whose Origin is the string "null" (what a browser sends for an opaque
    origin): with the default allow-list that origin is not listed, and
    the header the gate sets, "null", equals it all the same. *)
Lemma C1_counterexample_null_origin :
  let env := mkEnv None None None None in
  let req := mkRequest (Some (lit "POST")) (Some (lit "null")) None JUndefined in
  let res' := snd (corsMiddleware req (mkResponse [] 200 None)
                     (mkCORSConfig (getAllowedOrigins env))) in
  ~ In (lit "null") (getAllowedOrigins env)
  /\ headers_origin req = Some (lit "null")
  /\ getHeader res' CORS_ORIGIN = headers_origin req.
Proof.
  simpl. split; [|split; reflexivity].
  intros [H | [H | []]]; discriminate.
Qed.

(** C1, amended. For every request and every environment, the
    Access-Control-Allow-Origin header the CORS gate sets is the request's
    origin, unchanged, when the origin is a member of the configured
    allow-list (exact, case-sensitive equality of strings), and is the
    literal string "null" when the request has no origin or its origin is
    not a member of the allow-list; hence, for every origin other than the
    string "null" itself, the header equals the origin exactly when the
    origin is a member of the list. *)
Theorem C1_allow_origin_header (env : Env) (req : VercelRequest) (res : Response) :
  let allowed := getAllowedOrigins env in
  let res' := snd (corsMiddleware req res (mkCORSConfig allowed)) in
  (forall o, headers_origin req = Some o -> In o allowed ->
             getHeader res' CORS_ORIGIN = Some o)
  /\ (headers_origin req = None \/
      (exists o, headers_origin req = Some o /\ ~ In o allowed) ->
      getHeader res' CORS_ORIGIN = Some (lit "null"))
  /\ (forall o, headers_origin req = Some o ->
                getHeader res' CORS_ORIGIN = Some o ->
                In o allowed \/ o = lit "null")
  /\ (forall o, headers_origin req = Some o -> o <> lit "null" ->
                (getHeader res' CORS_ORIGIN = Some o <-> In o allowed)).
Proof.
  intros allowed res'. subst res'.
  rewrite corsMiddleware_origin. simpl.
  assert (Hmem : forall o, headers_origin req = Some o -> In o allowed ->
            Some (validateOrigin (headers_origin req) allowed) = Some o).
  { intros o Ho Hin. rewrite Ho. f_equal.
    apply validateOrigin_member; [exact Hin|].
    intros ->. exact (getAllowedOrigins_nonempty env Hin). }
  assert (Honly : forall o, headers_origin req = Some o ->
            Some (validateOrigin (headers_origin req) allowed) = Some o ->
            In o allowed \/ o = lit "null").
  { intros o Ho Hh. rewrite Ho in Hh. injection Hh as Hh.
    destruct (includes allowed o) eqn:E.
    - left. apply includes_In. exact E.
    - right. destruct o; simpl in Hh; congruence. }
  split; [exact Hmem|]. split; [|split; [exact Honly|]].
  - intros [Hnone | (o & Ho & Hnin)].
    + rewrite Hnone. reflexivity.
    + rewrite Ho. f_equal. apply validateOrigin_stranger. exact Hnin.
  - intros o Ho Hne. split.
    + intros Hh. destruct (Honly o Ho Hh) as [Hin | E]; [exact Hin | contradiction].
    + exact (Hmem o Ho).
Qed.

(* ================================================================== *)
(** * The request validator                                            *)
(* ================================================================== *)

Lemma truthy_not_nullish (v : JSVal) : truthy v = true -> isNullish v = false.
Proof. destruct v; simpl; congruence. Qed.

Lemma truthy_getProp_hasProp (v : JSVal) (k : jsstring) :
  truthy (getProp v k) = true -> hasProp v k = true.
Proof.
  destruct v; simpl; try discriminate.
  destruct (lookup k props); simpl; congruence.
Qed.

Lemma hasProp_JObj (v : JSVal) (k : jsstring) :
  hasProp v k = true -> exists props x, v = JObj props /\ lookup k props = Some x.
Proof.
  destruct v; simpl; try discriminate.
  destruct (lookup k props) eqn:E; [eauto | discriminate].
Qed.

Lemma trim_length_pos (s : jsstring) :
  isBlank s = false -> Nat.ltb 0 (length (trim s)) = true.
Proof.
  intros H. apply isBlank_false_trim in H.
  destruct (trim s); [congruence | reflexivity].
Qed.

(** After checks 3 to 5 the type guard of step 4 cannot fail. *)
Lemma isParseRequest_after_checks (b : JSVal) :
  truthy b = true -> isObject b = true ->
  truthy (getProp b TEXT) = true ->
  isString (getProp b TEXT) = true ->
  isBlank (stringOf (getProp b TEXT)) = false ->
  isParseRequest b = true.
Proof.
  intros Ht Ho Htt Hs Hb. unfold isParseRequest.
  rewrite Ht, Ho. simpl.
  fold TEXT. rewrite (truthy_getProp_hasProp _ _ Htt), Hs. simpl.
  apply trim_length_pos. exact Hb.
Qed.

(** The full validator on a POST request whose body is a non-null object:
    checks 3, 4 and 5 in that order. *)
Lemma validateRequest_post_object (req : VercelRequest) :
  methodIs req (lit "POST") = true ->
  truthy (body req) = true -> isObject (body req) = true ->
  validateRequest req =
    let text := getProp (body req) TEXT in
    if negb (truthy text) then throw (Taxonomy (textRequiredError (body req)))
    else if negb (isString text) then throw (Taxonomy (textNotStringError text))
    else if isBlank (stringOf text)
    then throw (Taxonomy (textEmptyError (stringOf text)))
    else ret (body req).
Proof.
  intros Hm Ht Ho. unfold validateRequest, validateMethod, validateBody.
  rewrite Hm, Ht, Ho. simpl.
  unfold validateRequiredFields. rewrite (truthy_not_nullish _ Ht).
  fold TEXT.
  destruct (truthy (getProp (body req) TEXT)) eqn:Htt; simpl; [|reflexivity].
  destruct (isString (getProp (body req) TEXT)) eqn:Hs; simpl; [|reflexivity].
  destruct (isBlank (stringOf (getProp (body req) TEXT))) eqn:Hb; simpl;
    [reflexivity|].
  rewrite (isParseRequest_after_checks _ Ht Ho Htt Hs Hb). reflexivity.
Qed.

(** C2 as stated fails: a POST body that has a [text] key holding the empty
    string is answered "Field 'text' is required", so that error is not
    raised exactly when the key is missing, and a blank [text] does not
    always raise "cannot be empty". *)
Lemma C2_counterexample_empty_text :
  let req := mkRequest (Some (lit "POST")) None None (JObj [(TEXT, JStr [])]) in
  hasProp (body req) TEXT = true
  /\ getProp (body req) TEXT = JStr []
  /\ trim [] = []
  /\ validateRequest req = throw (Taxonomy (textRequiredError (body req)))
  /\ validateRequest req <> throw (Taxonomy (textEmptyError [])).
Proof.
  simpl. repeat split; try reflexivity.
  intros H. apply (f_equal thrownMessage) in H. vm_compute in H. discriminate.
Qed.

(** C2, amended. In the full request validator, for every POST request
    whose body is a non-null object, the ValidationError
    "Field 'text' is required", whose context lists the keys present in the
    body, is raised exactly when the body's [text] value is falsy (the key
    is missing, or holds null, false, 0 or the empty string); if [text] is
    a non-empty string that is empty after trimming, the validator raises
    the "cannot be empty" ValidationError carrying the pre-trim length. *)
Theorem C2_required_iff_text_falsy (req : VercelRequest) :
  methodIs req (lit "POST") = true ->
  truthy (body req) = true -> isObject (body req) = true ->
  (validateRequest req = throw (Taxonomy (textRequiredError (body req)))
   <-> truthy (getProp (body req) TEXT) = false)
  /\ (forall s, getProp (body req) TEXT = JStr s -> s <> [] -> trim s = [] ->
        validateRequest req = throw (Taxonomy (textEmptyError s))).
Proof.
  intros Hm Ht Ho. rewrite (validateRequest_post_object req Hm Ht Ho). simpl.
  split.
  - destruct (truthy (getProp (body req) TEXT)) eqn:Htt; simpl.
    + split; [|discriminate]. intros H. exfalso.
      destruct (isString (getProp (body req) TEXT)); simpl in H.
      * destruct (isBlank (stringOf (getProp (body req) TEXT))); simpl in H;
          [|discriminate].
        apply (f_equal thrownMessage) in H. vm_compute in H. discriminate.
      * apply (f_equal thrownMessage) in H. vm_compute in H. discriminate.
    + split; reflexivity.
  - intros s Hs Hne Hblank. rewrite Hs.
    apply truthy_JStr in Hne. rewrite Hne. simpl.
    apply isBlank_trim in Hblank. rewrite Hblank. reflexivity.
Qed.

(** A body whose [text] is three spaces. *)
Lemma C2_required_iff_text_falsy_witness :
  validateRequest
    (mkRequest (Some (lit "POST")) None None
       (JObj [(TEXT, JStr (lit "   "))]))
  = throw (Taxonomy (textEmptyError (lit "   "))).
Proof.
  refine (proj2 (C2_required_iff_text_falsy
                   (mkRequest (Some (lit "POST")) None None
                      (JObj [(TEXT, JStr (lit "   "))])) _ _ _)
                (lit "   ") _ _ _);
    try reflexivity.
  vm_compute. discriminate.
Defined.

(* ================================================================== *)
(** * The local validation of the model's shifts                       *)
(* ================================================================== *)

Lemma field_check_passes (v : JSVal) :
  negb (truthy v) || negb (isString v) = false <-> isNonEmptyString v.
Proof.
  unfold isNonEmptyString. destruct v as [| |b|q|s|l|l]; simpl.
  all: try (split; [intros H; try discriminate;
                    destruct b; discriminate
                   | intros (s0 & E & _); discriminate]).
  - split; [destruct (negb _); discriminate | intros (s0 & E & _); discriminate].
  - destruct s as [|c s]; simpl.
    + split; [discriminate | intros (s0 & E & Hne); congruence].
    + split; [intros _; exists (c :: s); split; [reflexivity | discriminate]
             | reflexivity].
Qed.

Lemma object_check_passes (v : JSVal) :
  negb (truthy v) || negb (isObject v) = false <-> isNonNullObject v.
Proof.
  unfold isNonNullObject. destruct v as [| |b|q|s|l|l]; simpl.
  all: try (split; [discriminate | intros [[x E] | [x E]]; discriminate]).
  - split; [destruct b; discriminate | intros [[x E] | [x E]]; discriminate].
  - split; [destruct (negb _); discriminate | intros [[x E] | [x E]]; discriminate].
  - split; [destruct s; discriminate | intros [[x E] | [x E]]; discriminate].
  - split; eauto.
  - split; eauto.
Qed.

Lemma validateFields_cons (i : nat) (shift : JSVal) (f : jsstring)
    (rest : list jsstring) :
  validateFields i shift (f :: rest) =
    if negb (truthy (getProp shift f)) || negb (isString (getProp shift f))
    then throw (Taxonomy (shiftFieldError i shift f))
    else validateFields i shift rest.
Proof. reflexivity. Qed.

Lemma validateFields_ok (i : nat) (shift : JSVal) (fields : list jsstring) :
  validateFields i shift fields = ret tt
  <-> forall f, In f fields -> isNonEmptyString (getProp shift f).
Proof.
  induction fields as [|f rest IH].
  - simpl. split; [intros _ f [] | reflexivity].
  - rewrite validateFields_cons.
    destruct (negb (truthy (getProp shift f)) || negb (isString (getProp shift f)))
      eqn:E.
    + split; [discriminate|]. intros H. exfalso.
      assert (P : isNonEmptyString (getProp shift f)) by (apply H; left; reflexivity).
      apply field_check_passes in P. congruence.
    + rewrite IH. apply field_check_passes in E. split.
      * intros H g [<- | Hg]; [exact E | exact (H g Hg)].
      * intros H g Hg. apply H. right. exact Hg.
Qed.

Lemma validateFields_first (i : nat) (shift : JSVal)
    (fpre : list jsstring) (f : jsstring) (fpost : list jsstring) :
  (forall g, In g fpre -> isNonEmptyString (getProp shift g)) ->
  ~ isNonEmptyString (getProp shift f) ->
  validateFields i shift (fpre ++ f :: fpost)
  = throw (Taxonomy (shiftFieldError i shift f)).
Proof.
  intros Hpre Hf. induction fpre as [|g fpre IH].
  - simpl app. rewrite validateFields_cons.
    destruct (negb (truthy (getProp shift f)) || negb (isString (getProp shift f)))
      eqn:E; [reflexivity|].
    apply field_check_passes in E. contradiction.
  - simpl app. rewrite validateFields_cons.
    assert (P : isNonEmptyString (getProp shift g)) by (apply Hpre; left; reflexivity).
    apply field_check_passes in P. rewrite P.
    apply IH. intros h Hh. apply Hpre. right. exact Hh.
Qed.

Lemma validateShift_ok (i : nat) (shift : JSVal) :
  validateShift i shift = ret tt <-> wellFormedShift shift.
Proof.
  unfold validateShift, wellFormedShift.
  destruct (negb (truthy shift) || negb (isObject shift)) eqn:E.
  - split; [discriminate|]. intros [H _].
    apply object_check_passes in H. congruence.
  - apply object_check_passes in E. rewrite validateFields_ok. tauto.
Qed.

Lemma result_unit_cases (r : result unit) :
  r = ret tt \/ exists t, r = throw t.
Proof. destruct r as [t|[]]; [right; eauto | left; reflexivity]. Qed.

Lemma validateShiftsFrom_ok (i : nat) (shifts : list JSVal) :
  validateShiftsFrom i shifts = ret tt <-> Forall wellFormedShift shifts.
Proof.
  revert i. induction shifts as [|s rest IH]; intros i; simpl.
  - split; [constructor | reflexivity].
  - destruct (result_unit_cases (validateShift i s)) as [E | [t E]]; rewrite E; simpl.
    + rewrite IH. apply validateShift_ok in E. split.
      * intros H. constructor; assumption.
      * intros H. inversion H; assumption.
    + split; [discriminate|]. intros H. inversion H as [|? ? Hs _]; subst.
      apply (validateShift_ok i) in Hs. rewrite E in Hs. discriminate.
Qed.

(** The loop stops at the first element that is not well formed. *)
Lemma validateShiftsFrom_first (i : nat) (pre : list JSVal) (shift : JSVal)
    (post : list JSVal) (t : Thrown) :
  Forall wellFormedShift pre ->
  validateShift (i + length pre) shift = throw t ->
  validateShiftsFrom i (pre ++ shift :: post) = throw t.
Proof.
  revert i. induction pre as [|p pre IH]; intros i Hpre Hs; simpl.
  - rewrite Nat.add_0_r in Hs. rewrite Hs. reflexivity.
  - inversion Hpre as [|? ? Hp Hpre']; subst.
    apply (validateShift_ok i) in Hp. rewrite Hp. simpl.
    apply IH; [exact Hpre'|].
    simpl in Hs. rewrite Nat.add_succ_r in Hs. exact Hs.
Qed.

(** C3 as stated fails: an element that is an object and whose three
    fields are all present and of string type is refused when one of the
    strings is empty. *)
Lemma C3_counterexample_empty_date :
  let shift := JObj [(lit "date", JStr []);
                     (lit "startTime", JStr (lit "09:00"));
                     (lit "endTime", JStr (lit "17:00"))] in
  isNonNullObject shift
  /\ (forall field, In field requiredFields -> isStringValue (getProp shift field))
  /\ validateShifts [shift]
     = throw (Taxonomy (shiftFieldError 0 shift (lit "date"))).
Proof.
  simpl. split; [right; eauto|]. split; [|reflexivity].
  intros field [<- | [<- | [<- | []]]]; unfold isStringValue; simpl; eauto.
Qed.

(** C3, amended. For every array returned by the model, the local
    validation succeeds exactly when every element is a non-null object
    whose fields [date], [startTime] and [endTime] are non-empty strings.
    Otherwise it raises an AIServiceError for the first offending element:
    "not an object" with that element's index, or "missing or invalid
    field" with the index and the first offending field. Elements whose
    three fields are all non-empty strings never cause a failure. *)
Theorem C3_validateShifts_first_violation (shifts : list JSVal) :
  (validateShifts shifts = ret tt <-> Forall wellFormedShift shifts)
  /\ (forall pre shift post,
        shifts = pre ++ shift :: post -> Forall wellFormedShift pre ->
        (~ isNonNullObject shift ->
         validateShifts shifts
         = throw (Taxonomy (shiftNotObjectError (length pre) shift)))
        /\ (forall fpre field fpost,
              isNonNullObject shift ->
              requiredFields = fpre ++ field :: fpost ->
              (forall g, In g fpre -> isNonEmptyString (getProp shift g)) ->
              ~ isNonEmptyString (getProp shift field) ->
              validateShifts shifts
              = throw (Taxonomy (shiftFieldError (length pre) shift field)))).
Proof.
  split; [apply validateShiftsFrom_ok|].
  intros pre shift post -> Hpre. unfold validateShifts. split.
  - intros Hno. apply validateShiftsFrom_first; [exact Hpre|].
    simpl. unfold validateShift.
    destruct (negb (truthy shift) || negb (isObject shift)) eqn:E; [reflexivity|].
    apply object_check_passes in E. contradiction.
  - intros fpre field fpost Hobj Hsplit Hfpre Hfield.
    apply validateShiftsFrom_first; [exact Hpre|].
    simpl. unfold validateShift.
    apply object_check_passes in Hobj. rewrite Hobj, Hsplit.
    apply validateFields_first; assumption.
Qed.

(* ================================================================== *)
(** * The orchestrator                                                 *)
(* ================================================================== *)

Section Orchestrator.

Variable JSON_parse : jsstring -> jsstring + JSVal.
Variable generateContent : AIParserService -> jsstring -> ModelReply.
Variable currentYear : nat.

Local Abbreviation parse := (parseShifts JSON_parse generateContent currentYear).

Lemma rethrowOrWrap_ok_inv (this : AIParserService) (r : result (list JSVal))
    (shifts : list JSVal) :
  rethrowOrWrap this r = ret shifts -> r = ret shifts.
Proof.
  destruct r as [t|l]; simpl; [|exact (fun H => H)].
  destruct (isAIServiceError t); discriminate.
Qed.

Lemma interpretReply_ok_inv (this : AIParserService) (reply : ModelReply)
    (shifts : list JSVal) :
  interpretReply JSON_parse this reply = ret shifts ->
  exists raw, reply = ReplyText raw /\ isBlank raw = false
              /\ JSON_parse raw = inr (JArr shifts)
              /\ Forall wellFormedShift shifts.
Proof.
  destruct reply as [raw|n m]; simpl; [|discriminate].
  rewrite emptyOrBlank_isBlank.
  destruct (isBlank raw) eqn:Hb; [discriminate|].
  destruct (JSON_parse raw) as [e|v] eqn:Hp; [discriminate|].
  destruct v; try discriminate.
  destruct (result_unit_cases (validateShifts items)) as [E | [t E]];
    rewrite E; simpl; [|discriminate].
  intros H. injection H as <-.
  exists raw. repeat split; try assumption.
  apply validateShiftsFrom_ok in E. exact E.
Qed.

(** The converse: a reply that parses to an array of well-formed shifts is
    returned as it is. *)
Lemma interpretReply_ok (this : AIParserService) (raw : jsstring)
    (shifts : list JSVal) :
  isBlank raw = false -> JSON_parse raw = inr (JArr shifts) ->
  Forall wellFormedShift shifts ->
  interpretReply JSON_parse this (ReplyText raw) = ret shifts.
Proof.
  intros Hb Hp Hwf. simpl. rewrite emptyOrBlank_isBlank, Hb, Hp.
  apply (validateShiftsFrom_ok 0) in Hwf. unfold validateShifts.
  rewrite Hwf. reflexivity.
Qed.

Lemma parseShifts_ok_inv (this : AIParserService) (text : JSVal)
    (shifts : list JSVal) (prompts : list jsstring) :
  parse this text = (ret shifts, prompts) ->
  exists s raw,
    text = JStr s /\ isBlank s = false
    /\ prompts = [buildPrompt currentYear s]
    /\ generateContent this (buildPrompt currentYear s) = ReplyText raw
    /\ isBlank raw = false
    /\ JSON_parse raw = inr (JArr shifts)
    /\ Forall wellFormedShift shifts.
Proof.
  unfold parse, parseShifts.
  destruct (truthy text) eqn:Ht; simpl; [|discriminate].
  destruct (isString text) eqn:Hs; simpl; [|discriminate].
  apply isString_JStr in Hs. destruct Hs as [s ->]. simpl.
  destruct (isBlank s) eqn:Hb; [discriminate|].
  intros H. injection H as H <-.
  apply rethrowOrWrap_ok_inv, interpretReply_ok_inv in H.
  destruct H as (raw & Hr & Hrb & Hp & Hwf).
  exists s, raw. repeat split; assumption.
Qed.

Lemma rethrowOrWrap_error_status (this : AIParserService)
    (r : result (list JSVal)) (t : Thrown) :
  (forall t', r = throw t' -> statusOf t' = 500) ->
  rethrowOrWrap this r = throw t -> statusOf t = 500.
Proof.
  intros Hr. destruct r as [t'|l]; simpl; [|discriminate].
  destruct (isAIServiceError t').
  - intros H. injection H as <-. apply Hr. reflexivity.
  - intros H. injection H as <-. reflexivity.
Qed.

Lemma validateFields_error_status (i : nat) (shift : JSVal)
    (fields : list jsstring) (t : Thrown) :
  validateFields i shift fields = throw t -> statusOf t = 500.
Proof.
  induction fields as [|f rest IH]; [discriminate|].
  rewrite validateFields_cons.
  destruct (negb (truthy (getProp shift f)) || negb (isString (getProp shift f)));
    [|exact IH].
  intros H. injection H as <-. reflexivity.
Qed.

Lemma validateShiftsFrom_error_status (i : nat) (shifts : list JSVal)
    (t : Thrown) :
  validateShiftsFrom i shifts = throw t -> statusOf t = 500.
Proof.
  revert i. induction shifts as [|s rest IH]; intros i; simpl; [discriminate|].
  destruct (validateShift i s) as [t'|[]] eqn:E; simpl.
  - intros H. injection H as <-. unfold validateShift in E.
    destruct (negb (truthy s) || negb (isObject s)).
    + injection E as <-. reflexivity.
    + exact (validateFields_error_status _ _ _ _ E).
  - apply IH.
Qed.

Lemma interpretReply_error_status (this : AIParserService)
    (reply : ModelReply) (t : Thrown) :
  interpretReply JSON_parse this reply = throw t -> statusOf t = 500.
Proof.
  destruct reply as [raw|n m]; simpl.
  - destruct (emptyOrBlank raw); [intros H; injection H as <-; reflexivity|].
    destruct (JSON_parse raw) as [e|v];
      [intros H; injection H as <-; reflexivity|].
    destruct v; try (intros H; injection H as <-; reflexivity).
    unfold validateShifts.
    destruct (validateShiftsFrom 0 items) as [t'|[]] eqn:E; simpl; [|discriminate].
    intros H. injection H as <-.
    exact (validateShiftsFrom_error_status _ _ _ E).
  - intros H. injection H as <-. reflexivity.
Qed.

(** Every fault of [parseShifts] is answered with status 500. *)
Lemma parseShifts_error_status (this : AIParserService) (text : JSVal)
    (t : Thrown) (prompts : list jsstring) :
  parse this text = (throw t, prompts) -> statusOf t = 500.
Proof.
  unfold parse, parseShifts.
  destruct (truthy text); simpl;
    [|intros H; injection H as <- _; reflexivity].
  destruct (isString text); simpl;
    [|intros H; injection H as <- _; reflexivity].
  destruct (isBlank (stringOf text));
    [intros H; injection H as <- _; reflexivity|].
  intros H. injection H as H _.
  apply rethrowOrWrap_error_status in H; [exact H|].
  intros t'. apply interpretReply_error_status.
Qed.

(** C6. For every input string that is empty after trimming, and for an
    absent input ([undefined] or [null]), [parseShifts] raises an
    AIServiceError (status 500, not a ValidationError) whose context
    carries the input's length (0 for an absent input), and sends no
    prompt to the external model. *)
Theorem C6_parseShifts_blank_input (this : AIParserService) :
  (forall s, trim s = [] ->
     parse this (JStr s)
     = (throw (Taxonomy (emptyTextError (Z.of_nat (length s)))), []))
  /\ parse this JUndefined = (throw (Taxonomy (emptyTextError 0)), [])
  /\ parse this JNull = (throw (Taxonomy (emptyTextError 0)), [])
  /\ (forall n, errorClass (emptyTextError n) = AIServiceErrorClass
                /\ errorClass (emptyTextError n) <> ValidationErrorClass).
Proof.
  repeat split; try reflexivity; try discriminate.
  intros s Hs. unfold parse, parseShifts.
  destruct s as [|c s]; [reflexivity|].
  apply isBlank_trim in Hs.
  change (truthy (JStr (c :: s))) with true.
  change (isString (JStr (c :: s))) with true.
  cbn [negb stringOf]. rewrite Hs. reflexivity.
Qed.

End Orchestrator.

(* ================================================================== *)
(** * The configuration loader                                         *)
(* ================================================================== *)

(** C5 as stated fails: with the API key unset, building the
    configuration raises a plain [Error], which is no taxonomy error and so
    no ConfigurationError. *)
Lemma C5_counterexample_plain_error :
  let env := mkEnv None None None None in
  unsetOrBlank (env_GEMINI_API_KEY env) = true
  /\ buildConfig env = throw (Native (lit "Error") API_KEY_REQUIRED)
  /\ (forall e, buildConfig env <> throw (Taxonomy e)).
Proof.
  simpl. repeat split. intros e H. discriminate H.
Qed.

(** C5, amended. For every environment in which the mandatory API-key
    secret is absent or blank (empty after trimming), building the
    configuration fails by raising a plain [Error] whose message says that
    GEMINI_API_KEY is required; the fault is not an error of the taxonomy
    and carries neither a status code nor an operational flag. *)
Theorem C5_buildConfig_missing_key (env : Env) :
  unsetOrBlank (env_GEMINI_API_KEY env) = true ->
  buildConfig env = throw (Native (lit "Error") API_KEY_REQUIRED).
Proof.
  unfold buildConfig, getApiKey, unsetOrBlank.
  destruct (env_GEMINI_API_KEY env) as [k|]; [|reflexivity].
  intros ->. reflexivity.
Qed.

(** A key made of two spaces. *)
Lemma C5_buildConfig_missing_key_witness :
  buildConfig (mkEnv (Some (lit "  ")) None None (Some (lit "production")))
  = throw (Native (lit "Error") API_KEY_REQUIRED).
Proof.
  apply (C5_buildConfig_missing_key
           (mkEnv (Some (lit "  ")) None None (Some (lit "production")))).
  reflexivity.
Defined.

(** With a key that is not blank the configuration is built, the key
    trimmed. *)
Lemma buildConfig_with_key (env : Env) (key : jsstring) :
  env_GEMINI_API_KEY env = Some key -> isBlank key = false ->
  buildConfig env
  = ret (mkAppConfig (trim key) (getAllowedOrigins env) (getModelName env)).
Proof.
  intros Hk Hb. unfold buildConfig, getApiKey.
  rewrite Hk, emptyOrBlank_isBlank, Hb. reflexivity.
Qed.

(* ================================================================== *)
(** * The error responder                                              *)
(* ================================================================== *)

(** An error that is not of the taxonomy is answered with the fixed
    message and status 500, in production and outside. *)
Lemma handleError_native_generic (NODE_ENV : option jsstring)
    (name msg : jsstring) (res : Response) :
  let res' := fst (handleError NODE_ENV (Native name msg) res) in
  resStatus res' = 500
  /\ resBody res'
     = Some (BodyJson (JObj [(lit "error", JStr GENERIC_MESSAGE);
                             (lit "statusCode", JInt 500)])).
Proof. simpl. split; reflexivity. Qed.

(** An error of the taxonomy is answered with its own message and status,
    whatever its operational flag. *)
Lemma buildErrorResponse_taxonomy_message (NODE_ENV : option jsstring)
    (e : AppError) :
  getProp (buildErrorResponse NODE_ENV (Taxonomy e)) (lit "error")
  = JStr (message e).
Proof. reflexivity. Qed.

(** C4 as stated fails: a ConfigurationError, which is not operational,
    is answered with its own message, in production as outside; the fixed
    generic message is not used for it. *)
Lemma C4_configuration_error_message_exposed :
  let error := Taxonomy (ConfigurationError
                 (lit "Invalid API key provided to AIParserService")
                 (Some [(lit "provided", JBool false)])) in
  let res := mkResponse [] 200 None in
  isOperationalError error = false
  /\ resBody (fst (handleError (Some (lit "production")) error res))
     = Some (BodyJson
               (JObj [(lit "error",
                       JStr (lit "Invalid API key provided to AIParserService"));
                      (lit "statusCode", JInt 500)]))
  /\ getProp (buildErrorResponse None error) (lit "error")
     = JStr (lit "Invalid API key provided to AIParserService")
  /\ lit "Invalid API key provided to AIParserService" <> GENERIC_MESSAGE.
Proof.
  simpl. repeat split. discriminate.
Qed.

(** C4, amended. For every error consumed by the error responder that is
    not a recognized taxonomy error, the [error] field of the client-facing
    body is the generic fixed message, whatever the deployment mode, so it
    does not repeat the error's own message (unless that message is itself
    the fixed text); for every error of the taxonomy, the non-operational
    ConfigurationError included, the [error] field is the error's own
    message, whatever the deployment mode. *)
Theorem C4_error_field_by_kind (NODE_ENV : option jsstring) (error : Thrown)
    (res : Response) :
  let out := fst (handleError NODE_ENV error res) in
  exists obj,
    resBody out = Some (BodyJson obj)
    /\ match error with
       | Native name msg =>
           getProp obj (lit "error") = JStr GENERIC_MESSAGE
           /\ resStatus out = 500
           /\ (msg <> GENERIC_MESSAGE -> getProp obj (lit "error") <> JStr msg)
       | Taxonomy e =>
           getProp obj (lit "error") = JStr (message e)
           /\ resStatus out = statusCode e
       end.
Proof.
  destruct error as [e|name msg]; simpl; eexists; (split; [reflexivity|]).
  - split; reflexivity.
  - repeat split. intros Hne E. injection E as E. congruence.
Qed.

(* ================================================================== *)
(** * The two entry points of the validator                            *)
(* ================================================================== *)

Lemma validateRequest_ok_inv (req : VercelRequest) (parsed : JSVal) :
  validateRequest req = ret parsed ->
  parsed = body req
  /\ methodIs req (lit "POST") = true
  /\ truthy (body req) = true /\ isObject (body req) = true
  /\ exists s, getProp (body req) TEXT = JStr s /\ isBlank s = false.
Proof.
  intros H.
  assert (Hm : methodIs req (lit "POST") = true).
  { unfold validateRequest, validateMethod in H.
    destruct (methodIs req (lit "POST")); [reflexivity | discriminate]. }
  assert (Ht : truthy (body req) = true).
  { unfold validateRequest, validateMethod, validateBody in H. rewrite Hm in H.
    destruct (truthy (body req)); [reflexivity | discriminate]. }
  assert (Ho : isObject (body req) = true).
  { unfold validateRequest, validateMethod, validateBody in H.
    rewrite Hm, Ht in H.
    destruct (isObject (body req)); [reflexivity | discriminate]. }
  rewrite (validateRequest_post_object req Hm Ht Ho) in H. simpl in H.
  destruct (truthy (getProp (body req) TEXT)); simpl in H; [|discriminate].
  destruct (isString (getProp (body req) TEXT)) eqn:Hs; simpl in H; [|discriminate].
  destruct (isBlank (stringOf (getProp (body req) TEXT))) eqn:Hb; [discriminate|].
  injection H as <-. apply isString_JStr in Hs. destruct Hs as [s Hs].
  rewrite Hs in Hb. simpl in Hb. repeat split; try assumption; eauto.
Qed.

(** C8 as stated fails: for a body without [text] the light entry point
    and check 3 of the full validator raise different errors (the light one
    has no diagnostic context), and outside production the two client-facing
    bodies differ. *)
Lemma C8_counterexample_context_differs :
  let req := mkRequest (Some (lit "POST")) None None (JObj []) in
  validateTextField req
  = throw (Taxonomy (ValidationError (lit "Field 'text' is required") None))
  /\ validateRequiredFields (body req)
     = throw (Taxonomy (textRequiredError (body req)))
  /\ context (textRequiredError (body req)) <> None
  /\ buildErrorResponse None
       (Taxonomy (ValidationError (lit "Field 'text' is required") None))
     <> buildErrorResponse None (Taxonomy (textRequiredError (body req))).
Proof.
  simpl. repeat split; try discriminate.
Qed.

(** C8, amended. For every request whose body is neither [undefined] nor
    [null], [validateTextField] and checks 3 to 5 of the full validator
    fail under exactly the same conditions, with a ValidationError of the
    same message, status code and operational flag, the diagnostic context
    apart (the light entry point attaches none, or only the provided
    type); when they succeed, [validateTextField] returns the body's
    [text]; and whenever [validateRequest] accepts a request,
    [validateTextField] returns the [text] of the body it returns. *)
Theorem C8_validateTextField_agrees (req : VercelRequest) :
  isNullish (body req) = false ->
  match validateTextField req, validateRequiredFields (body req) with
  | inr t, inr _ => getProp (body req) TEXT = JStr t
  | inl e1, inl e2 =>
      sameErrorUpToContext e1 e2
      /\ exists e, e1 = Taxonomy e /\ errorClass e = ValidationErrorClass
  | _, _ => False
  end
  /\ (forall parsed, validateRequest req = ret parsed ->
        exists t, validateTextField req = ret t
                  /\ getProp parsed TEXT = JStr t).
Proof.
  intros Hn. split.
  - unfold validateTextField, validateRequiredFields. rewrite Hn. fold TEXT.
    destruct (truthy (getProp (body req) TEXT)); simpl;
      [|split; [repeat split | eexists; split; reflexivity]].
    destruct (isString (getProp (body req) TEXT)) eqn:Hs; simpl;
      [|split; [repeat split | eexists; split; reflexivity]].
    destruct (isBlank (stringOf (getProp (body req) TEXT))); simpl;
      [split; [repeat split | eexists; split; reflexivity]|].
    apply isString_JStr in Hs. destruct Hs as [s ->]. reflexivity.
  - intros parsed H. apply validateRequest_ok_inv in H.
    destruct H as (-> & _ & _ & _ & s & Hs & Hb).
    exists s. split; [|exact Hs].
    unfold validateTextField. rewrite Hn. fold TEXT. rewrite Hs.
    assert (Hne : truthy (JStr s) = true).
    { apply truthy_JStr. apply not_blank_not_empty. exact Hb. }
    rewrite Hne. simpl. rewrite Hb. reflexivity.
Qed.

(** A body whose [text] is a number. *)
Lemma C8_validateTextField_agrees_witness :
  sameErrorUpToContext
    (Taxonomy (ValidationError (lit "Field 'text' must be a string")
                 (Some [(lit "providedType", JStr (lit "number"))])))
    (Taxonomy (textNotStringError (JInt 5))).
Proof.
  exact (proj1 (proj1 (C8_validateTextField_agrees
                  (mkRequest (Some (lit "POST")) None None
                     (JObj [(TEXT, JInt 5)]))
                  eq_refl))).
Defined.

(* ================================================================== *)
(** * The entry point                                                  *)
(* ================================================================== *)

Lemma validateFields_error_class (i : nat) (shift : JSVal)
    (fields : list jsstring) (t : Thrown) :
  validateFields i shift fields = throw t ->
  exists e, t = Taxonomy e /\ errorClass e = AIServiceErrorClass.
Proof.
  induction fields as [|f rest IH]; [discriminate|].
  rewrite validateFields_cons.
  destruct (negb (truthy (getProp shift f)) || negb (isString (getProp shift f)));
    [|exact IH].
  intros H. injection H as <-. eexists. split; reflexivity.
Qed.

Lemma validateShiftsFrom_error_class (i : nat) (shifts : list JSVal)
    (t : Thrown) :
  validateShiftsFrom i shifts = throw t ->
  exists e, t = Taxonomy e /\ errorClass e = AIServiceErrorClass.
Proof.
  revert i. induction shifts as [|s rest IH]; intros i; simpl; [discriminate|].
  destruct (validateShift i s) as [t'|[]] eqn:E; simpl.
  - intros H. injection H as <-. unfold validateShift in E.
    destruct (negb (truthy s) || negb (isObject s)).
    + injection E as <-. eexists. split; reflexivity.
    + exact (validateFields_error_class _ _ _ _ E).
  - apply IH.
Qed.

(** An element with an empty string in a required field is refused. *)
Lemma validateShifts_rejects_empty_field (shifts : list JSVal)
    (shift : JSVal) (field : jsstring) :
  In shift shifts -> In field requiredFields ->
  getProp shift field = JStr [] ->
  exists e, validateShifts shifts = throw (Taxonomy e)
            /\ errorClass e = AIServiceErrorClass.
Proof.
  intros Hin Hf Hempty. unfold validateShifts.
  destruct (result_unit_cases (validateShiftsFrom 0 shifts)) as [E | [t E]].
  - exfalso. apply validateShiftsFrom_ok in E.
    rewrite Forall_forall in E. destruct (E shift Hin) as [_ Hw].
    destruct (Hw field Hf) as (s & Hs & Hne). congruence.
  - destruct (validateShiftsFrom_error_class _ _ _ E) as (e & -> & Hc).
    exists e. split; assumption.
Qed.

Lemma createAIParserService_error_status (key model : jsstring) (t : Thrown) :
  createAIParserService key model = throw t -> statusOf t = 500.
Proof.
  unfold createAIParserService, newAIParserService. simpl.
  destruct (emptyOrBlank key); [intros H; injection H as <-; reflexivity|].
  destruct (emptyOrBlank model); [intros H; injection H as <-; reflexivity|].
  discriminate.
Qed.

Lemma validateRequest_error_status (req : VercelRequest) (t : Thrown) :
  validateRequest req = throw t -> statusOf t <> 200.
Proof.
  unfold validateRequest, validateMethod, validateBody, validateRequiredFields.
  destruct (methodIs req (lit "POST")); simpl;
    [|intros H; injection H as <-; discriminate].
  destruct (truthy (body req)); simpl;
    [|intros H; injection H as <-; discriminate].
  destruct (isObject (body req)); simpl;
    [|intros H; injection H as <-; discriminate].
  destruct (isNullish (body req)); simpl;
    [intros H; injection H as <-; discriminate|].
  destruct (truthy (getProp (body req) (lit "text"))); simpl;
    [|intros H; injection H as <-; discriminate].
  destruct (isString (getProp (body req) (lit "text"))); simpl;
    [|intros H; injection H as <-; discriminate].
  destruct (isBlank (stringOf (getProp (body req) (lit "text")))); simpl;
    [intros H; injection H as <-; discriminate|].
  destruct (isParseRequest (body req)); simpl;
    [discriminate | intros H; injection H as <-; discriminate].
Qed.

Section EntryPoint.

Variable JSON_parse : jsstring -> jsstring + JSVal.
Variable generateContent : AIParserService -> jsstring -> ModelReply.
Variable currentYear : nat.
Variable NODE_ENV : option jsstring.

Local Abbreviation run_pipeline :=
  (pipeline JSON_parse generateContent currentYear).
Local Abbreviation run_handler :=
  (handler JSON_parse generateContent currentYear NODE_ENV).

Lemma pipeline_error_status (config : AppConfig) (req : VercelRequest)
    (t : Thrown) (calls : list Event) :
  run_pipeline config req = (throw t, calls) -> statusOf t <> 200.
Proof.
  unfold pipeline.
  destruct (validateRequest req) as [t0|parsed] eqn:Hv.
  - intros H. injection H as <- _. exact (validateRequest_error_status _ _ Hv).
  - destruct (createAIParserService _ _) as [t0|svc] eqn:Hc.
    + intros H. injection H as <- _.
      rewrite (createAIParserService_error_status _ _ _ Hc). discriminate.
    + destruct (parseShifts _ _ _ svc _) as [r prompts] eqn:Hp.
      intros H. injection H as -> _.
      rewrite (parseShifts_error_status _ _ _ _ _ _ _ Hp). discriminate.
Qed.

(** What a successful run of the [try] block went through. *)
Lemma pipeline_ok_inv (config : AppConfig) (req : VercelRequest)
    (shifts : list JSVal) (calls : list Event) :
  run_pipeline config req = (ret shifts, calls) ->
  exists s svc raw,
    validateRequest req = ret (body req)
    /\ getProp (body req) TEXT = JStr s
    /\ createAIParserService (GEMINI_API_KEY config) (AI_MODEL_NAME config)
       = ret svc
    /\ generateContent svc (buildPrompt currentYear s) = ReplyText raw
    /\ JSON_parse raw = inr (JArr shifts)
    /\ Forall wellFormedShift shifts
    /\ calls = [CallValidateRequest; CallParseShifts (JStr s);
                CallGenerateContent (buildPrompt currentYear s)].
Proof.
  unfold pipeline.
  destruct (validateRequest req) as [t0|parsed] eqn:Hv; [discriminate|].
  destruct (createAIParserService _ _) as [t0|svc] eqn:Hc; [discriminate|].
  destruct (parseShifts _ _ _ svc _) as [r prompts] eqn:Hp.
  intros H. injection H as -> <-.
  apply validateRequest_ok_inv in Hv. destruct Hv as (-> & Hm & Ht & Ho & _).
  apply parseShifts_ok_inv in Hp.
  destruct Hp as (s & raw & Hs & Hb & -> & Hg & _ & Hj & Hwf).
  exists s, svc, raw. rewrite Hs.
  repeat split; assumption || reflexivity.
Qed.

(** A 200 response with a JSON body comes from step 5 only. *)
Lemma handler_success_inv (config : AppConfig) (req : VercelRequest)
    (res : Response) :
  success (fst (run_handler config req res)) ->
  exists shifts s svc raw,
    resBody (fst (run_handler config req res)) = Some (BodyJson (JArr shifts))
    /\ getProp (body req) TEXT = JStr s
    /\ createAIParserService (GEMINI_API_KEY config) (AI_MODEL_NAME config)
       = ret svc
    /\ generateContent svc (buildPrompt currentYear s) = ReplyText raw
    /\ JSON_parse raw = inr (JArr shifts)
    /\ Forall wellFormedShift shifts.
Proof.
  unfold handler, corsMiddleware.
  destruct (methodIs req (lit "OPTIONS")).
  - simpl. intros [_ [v Hv]]. discriminate.
  - destruct (pipeline _ _ _ config req) as [[t|shifts] calls] eqn:Hp.
    + simpl. intros [Hs _]. exfalso.
      apply pipeline_error_status in Hp. apply Hp.
      destruct t; exact Hs.
    + simpl. intros _. apply pipeline_ok_inv in Hp.
      destruct Hp as (s & svc & raw & _ & Hs & Hc & Hg & Hj & Hwf & _).
      exists shifts, s, svc, raw. repeat split; assumption.
Qed.

(** The other direction: a valid request and a reply that parses to
    well-formed shifts give a 200 response with exactly these shifts. *)
Lemma handler_success (config : AppConfig) (req : VercelRequest)
    (res : Response) (s raw : jsstring) (svc : AIParserService)
    (shifts : list JSVal) :
  validateRequest req = ret (body req) ->
  getProp (body req) TEXT = JStr s ->
  createAIParserService (GEMINI_API_KEY config) (AI_MODEL_NAME config) = ret svc ->
  generateContent svc (buildPrompt currentYear s) = ReplyText raw ->
  isBlank raw = false ->
  JSON_parse raw = inr (JArr shifts) ->
  Forall wellFormedShift shifts ->
  let res' := fst (run_handler config req res) in
  resStatus res' = 200 /\ resBody res' = Some (BodyJson (JArr shifts)).
Proof.
  intros Hv Hs Hc Hg Hrb Hj Hwf.
  destruct (validateRequest_ok_inv _ _ Hv) as (_ & Hm & _ & _ & s' & Hs' & Hb).
  rewrite Hs in Hs'. injection Hs' as <-.
  unfold handler, corsMiddleware.
  assert (Hopt : methodIs req (lit "OPTIONS") = false).
  { unfold methodIs in *. destruct (method req) as [m|]; [|reflexivity].
    apply str_eqb_eq in Hm. subst m. reflexivity. }
  rewrite Hopt. unfold pipeline. rewrite Hv, Hc. unfold ret.
  cbv beta iota zeta. change (lit "text") with TEXT. rewrite Hs.
  unfold parseShifts.
  assert (Hne : truthy (JStr s) = true).
  { apply truthy_JStr. apply not_blank_not_empty. exact Hb. }
  rewrite Hne. change (isString (JStr s)) with true. cbn [negb stringOf].
  rewrite Hb, Hg, (interpretReply_ok _ _ _ _ Hrb Hj Hwf).
  simpl. split; reflexivity.
Qed.

End EntryPoint.

(** C7. For every request with method OPTIONS, the CORS middleware
    returns true, the handler answers with status 200 and an empty body and
    stops there: its trace of calls is empty, so neither the request
    validator nor the parsing orchestrator (nor the external model) is
    invoked. *)
Theorem C7_options_preflight
    (JSON_parse : jsstring -> jsstring + JSVal)
    (generateContent : AIParserService -> jsstring -> ModelReply)
    (currentYear : nat) (NODE_ENV : option jsstring)
    (config : AppConfig) (req : VercelRequest) (res : Response) :
  methodIs req (lit "OPTIONS") = true ->
  let run := handler JSON_parse generateContent currentYear NODE_ENV config req res in
  fst (corsMiddleware req res (mkCORSConfig (ALLOWED_ORIGINS config))) = true
  /\ resStatus (fst run) = 200
  /\ resBody (fst run) = Some BodyEmpty
  /\ snd run = [].
Proof.
  intros Hm. unfold handler, corsMiddleware. rewrite Hm. simpl.
  repeat split.
Qed.

Lemma C7_options_preflight_witness :
  let run := handler sampleParse sampleModel 2026 None sampleConfig
               samplePreflight freshResponse in
  fst (corsMiddleware samplePreflight freshResponse
         (mkCORSConfig (ALLOWED_ORIGINS sampleConfig))) = true
  /\ resStatus (fst run) = 200
  /\ resBody (fst run) = Some BodyEmpty
  /\ snd run = [].
Proof.
  exact (C7_options_preflight sampleParse sampleModel 2026 None sampleConfig
           samplePreflight freshResponse eq_refl).
Defined.

(** C9. Two invocations of the handler that receive the same input text
    and the same raw model output, and both answer with a success
    response, send byte-identical bodies, whatever else differs between
    them (the other headers and fields of the request, the year, the
    deployment mode, the configuration); the body is the serialisation of
    the JSON value parsed from the model output. *)
Theorem C9_success_body_determined
    (JSON_parse : jsstring -> jsstring + JSVal)
    (stringify : JSVal -> jsstring)
    (generateContent1 generateContent2 : AIParserService -> jsstring -> ModelReply)
    (year1 year2 : nat) (NODE_ENV1 NODE_ENV2 : option jsstring)
    (config1 config2 : AppConfig) (req1 req2 : VercelRequest)
    (res1 res2 : Response) (text raw : jsstring) :
  let out1 := fst (handler JSON_parse generateContent1 year1 NODE_ENV1
                     config1 req1 res1) in
  let out2 := fst (handler JSON_parse generateContent2 year2 NODE_ENV2
                     config2 req2 res2) in
  getProp (body req1) TEXT = JStr text ->
  getProp (body req2) TEXT = JStr text ->
  (forall svc,
     createAIParserService (GEMINI_API_KEY config1) (AI_MODEL_NAME config1)
     = ret svc ->
     generateContent1 svc (buildPrompt year1 text) = ReplyText raw) ->
  (forall svc,
     createAIParserService (GEMINI_API_KEY config2) (AI_MODEL_NAME config2)
     = ret svc ->
     generateContent2 svc (buildPrompt year2 text) = ReplyText raw) ->
  success out1 -> success out2 ->
  exists v,
    JSON_parse raw = inr v
    /\ resBody out1 = Some (BodyJson v)
    /\ resBody out2 = Some (BodyJson v)
    /\ sentBytes stringify out1 = Some (stringify v)
    /\ sentBytes stringify out1 = sentBytes stringify out2.
Proof.
  intros out1 out2 Ht1 Ht2 Hg1 Hg2 Hs1 Hs2. subst out1 out2.
  apply handler_success_inv in Hs1.
  destruct Hs1 as (shifts1 & s1 & svc1 & raw1 & Hb1 & Hx1 & Hc1 & Hr1 & Hj1 & _).
  apply handler_success_inv in Hs2.
  destruct Hs2 as (shifts2 & s2 & svc2 & raw2 & Hb2 & Hx2 & Hc2 & Hr2 & Hj2 & _).
  rewrite Ht1 in Hx1. injection Hx1 as <-.
  rewrite Ht2 in Hx2. injection Hx2 as <-.
  rewrite (Hg1 svc1 Hc1) in Hr1. injection Hr1 as <-.
  rewrite (Hg2 svc2 Hc2) in Hr2. injection Hr2 as <-.
  rewrite Hj1 in Hj2. injection Hj2 as <-.
  exists (JArr shifts1). unfold sentBytes. rewrite Hb1, Hb2.
  repeat split. exact Hj1.
Qed.

(** The sample text sent twice, from two origins, in two years and two
    deployment modes. *)
Lemma C9_success_body_determined_witness :
  exists v,
    sampleParse sampleReply = inr v
    /\ resBody (fst (handler sampleParse sampleModel 2026 None sampleConfig
                       sampleRequest freshResponse)) = Some (BodyJson v)
    /\ resBody (fst (handler sampleParse sampleModel 2027
                       (Some (lit "production")) sampleConfig
                       sampleRequest' freshResponse)) = Some (BodyJson v)
    /\ sentBytes sampleStringify
         (fst (handler sampleParse sampleModel 2026 None sampleConfig
                 sampleRequest freshResponse))
       = Some (sampleStringify v)
    /\ sentBytes sampleStringify
         (fst (handler sampleParse sampleModel 2026 None sampleConfig
                 sampleRequest freshResponse))
       = sentBytes sampleStringify
           (fst (handler sampleParse sampleModel 2027
                   (Some (lit "production")) sampleConfig
                   sampleRequest' freshResponse)).
Proof.
  apply (C9_success_body_determined sampleParse sampleStringify
           sampleModel sampleModel 2026 2027 None (Some (lit "production"))
           sampleConfig sampleConfig sampleRequest sampleRequest'
           freshResponse freshResponse
           (lit "I work Monday 9am to 5pm") sampleReply).
  - reflexivity.
  - reflexivity.
  - intros svc _. reflexivity.
  - intros svc _. reflexivity.
  - split; [vm_compute; reflexivity | eexists; vm_compute; reflexivity].
  - split; [vm_compute; reflexivity | eexists; vm_compute; reflexivity].
Defined.

(** C10. In every success response (status 200 with a JSON body) the body
    is an array of shifts whose [date], [startTime] and [endTime] are
    non-empty strings: the local validation refuses, with an
    AIServiceError, any array holding an element one of whose required
    fields is the empty string, although that field is present and of
    string type, so no empty-string field reaches the client. *)
Theorem C10_success_fields_nonempty
    (JSON_parse : jsstring -> jsstring + JSVal)
    (generateContent : AIParserService -> jsstring -> ModelReply)
    (currentYear : nat) (NODE_ENV : option jsstring)
    (config : AppConfig) (req : VercelRequest) (res : Response) :
  let out := fst (handler JSON_parse generateContent currentYear NODE_ENV
                    config req res) in
  (success out ->
   exists shifts,
     resBody out = Some (BodyJson (JArr shifts))
     /\ Forall wellFormedShift shifts)
  /\ (forall shifts shift field,
        In shift shifts -> In field requiredFields ->
        getProp shift field = JStr [] ->
        isStringValue (getProp shift field)
        /\ exists e, validateShifts shifts = throw (Taxonomy e)
                     /\ errorClass e = AIServiceErrorClass).
Proof.
  intros out. subst out. split.
  - intros Hs. apply handler_success_inv in Hs.
    destruct Hs as (shifts & s & svc & raw & Hb & _ & _ & _ & _ & Hwf).
    exists shifts. split; assumption.
  - intros shifts shift field Hin Hf He. split.
    + exists []. exact He.
    + exact (validateShifts_rejects_empty_field shifts shift field Hin Hf He).
Qed.

(** The sample run is a success response, with the sample shift. *)
Lemma C10_success_fields_nonempty_witness :
  exists shifts,
    resBody (fst (handler sampleParse sampleModel 2026 None sampleConfig
                    sampleRequest freshResponse))
    = Some (BodyJson (JArr shifts))
    /\ Forall wellFormedShift shifts.
Proof.
  apply (proj1 (C10_success_fields_nonempty sampleParse sampleModel 2026 None
                  sampleConfig sampleRequest freshResponse)).
  split; [vm_compute; reflexivity | eexists; vm_compute; reflexivity].
Defined.

(* ================================================================== *)
(** * More on trimming and splitting                                   *)
(* ================================================================== *)

Lemma trimStart_decomp (s : jsstring) :
  exists p, s = p ++ trimStart s /\ allWhiteSpace p.
Proof.
  induction s as [|c s (p & Hp & Hw)]; simpl.
  - exists []. split; [reflexivity | constructor].
  - destruct (isWhiteSpace c) eqn:W.
    + exists (c :: p). split; [simpl; congruence | constructor; assumption].
    + exists []. split; [reflexivity | constructor].
Qed.

Lemma trimStart_noLeadingSpace (s : jsstring) : noLeadingSpace (trimStart s).
Proof.
  induction s as [|c s IH]; simpl; [exact I|].
  destruct (isWhiteSpace c) eqn:W; [exact IH | exact W].
Qed.

Lemma trimStart_fix (s : jsstring) : noLeadingSpace s -> trimStart s = s.
Proof. destruct s as [|c s]; simpl; [reflexivity | intros ->; reflexivity]. Qed.

Lemma trimStart_idempotent (s : jsstring) : trimStart (trimStart s) = trimStart s.
Proof. apply trimStart_fix, trimStart_noLeadingSpace. Qed.

Lemma allWhiteSpace_rev (s : jsstring) : allWhiteSpace s -> allWhiteSpace (rev s).
Proof. unfold allWhiteSpace. apply Forall_rev. Qed.

Lemma trimEnd_decomp (s : jsstring) :
  exists w, s = trimEnd s ++ w /\ allWhiteSpace w.
Proof.
  unfold trimEnd. destruct (trimStart_decomp (rev s)) as (p & Hp & Hw).
  exists (rev p). split; [|apply allWhiteSpace_rev; exact Hw].
  rewrite <- rev_app_distr, <- Hp, rev_involutive. reflexivity.
Qed.

Lemma noLeadingSpace_prefix (a b : jsstring) :
  noLeadingSpace (a ++ b) -> noLeadingSpace a.
Proof. destruct a; simpl; [intros _; exact I | exact (fun H => H)]. Qed.

Lemma trimEnd_noLeadingSpace (s : jsstring) :
  noLeadingSpace s -> noLeadingSpace (trimEnd s).
Proof.
  intros H. destruct (trimEnd_decomp s) as (w & Hs & _).
  rewrite Hs in H. exact (noLeadingSpace_prefix _ _ H).
Qed.

Lemma trimEnd_idempotent (s : jsstring) : trimEnd (trimEnd s) = trimEnd s.
Proof.
  unfold trimEnd. rewrite rev_involutive, trimStart_idempotent. reflexivity.
Qed.

Lemma trim_noLeadingSpace (s : jsstring) : noLeadingSpace (trim s).
Proof. apply trimEnd_noLeadingSpace, trimStart_noLeadingSpace. Qed.

Lemma trim_idempotent (s : jsstring) : trim (trim s) = trim s.
Proof.
  unfold trim at 1. rewrite (trimStart_fix _ (trim_noLeadingSpace s)).
  unfold trim. apply trimEnd_idempotent.
Qed.

Lemma allWhiteSpace_head (c : N) (s : jsstring) :
  allWhiteSpace (c :: s) -> isWhiteSpace c = true.
Proof. intros H. inversion H; assumption. Qed.

(** A string that starts with a character that is not white space does not
    trim to the empty string. *)
Lemma trim_not_empty (s : jsstring) :
  noLeadingSpace s -> s <> [] -> trim s <> [].
Proof.
  intros Hh Hne Ht. unfold trim in Ht. rewrite (trimStart_fix _ Hh) in Ht.
  destruct (trimEnd_decomp s) as (w & Hs & Hw). rewrite Ht in Hs. simpl in Hs.
  subst w. destruct s as [|c s]; [congruence|].
  apply allWhiteSpace_head in Hw. simpl in Hh. congruence.
Qed.

Lemma trimmed_noLeadingSpace (s : jsstring) : trim s = s -> noLeadingSpace s.
Proof. intros <-. apply trim_noLeadingSpace. Qed.

Lemma isBlank_trim_false (s : jsstring) :
  isBlank s = false -> isBlank (trim s) = false.
Proof.
  rewrite !isBlank_false_trim, trim_idempotent. exact (fun H => H).
Qed.

(** What [trim] keeps is a contiguous part of the string. *)
Lemma trim_infix (s : jsstring) : exists p w, s = p ++ trim s ++ w.
Proof.
  destruct (trimStart_decomp s) as (p & Hp & _).
  destruct (trimEnd_decomp (trimStart s)) as (w & Hw & _).
  exists p, w. unfold trim. rewrite <- Hw. exact Hp.
Qed.

Lemma trim_In (c : N) (s : jsstring) : In c (trim s) -> In c s.
Proof.
  intros H. destruct (trim_infix s) as (p & w & Hs). rewrite Hs.
  apply in_or_app. right. apply in_or_app. left. exact H.
Qed.

Lemma split_not_nil (sep : N) (s : jsstring) : split sep s <> [].
Proof.
  induction s as [|c s IH]; simpl; [discriminate|].
  destruct (N.eqb c sep); [discriminate|].
  destruct (split sep s); [congruence | discriminate].
Qed.

Lemma split_no_sep (sep : N) (s tok : jsstring) :
  In tok (split sep s) -> ~ In sep tok.
Proof.
  revert tok. induction s as [|c s IH]; simpl; intros tok.
  - intros [<- | []]. exact (fun H => H).
  - destruct (N.eqb c sep) eqn:E.
    + intros [<- | H]; [exact (fun H => H) | exact (IH _ H)].
    + destruct (split sep s) as [|t rest] eqn:Es.
      * exfalso. exact (split_not_nil _ _ Es).
      * intros [<- | H].
        -- intros [Hc | Hin]; [apply N.eqb_neq in E; congruence|].
           exact (IH t (or_introl eq_refl) Hin).
        -- apply IH. right. exact H.
Qed.

Lemma split_no_sep_single (sep : N) (a : jsstring) :
  ~ In sep a -> split sep a = [a].
Proof.
  induction a as [|c a IH]; simpl; [reflexivity|].
  intros H. destruct (N.eqb c sep) eqn:E.
  - apply N.eqb_eq in E. exfalso. apply H. left. exact E.
  - rewrite IH; [reflexivity|]. intros Hin. apply H. right. exact Hin.
Qed.

Lemma split_app_sep (sep : N) (a rest : jsstring) :
  ~ In sep a -> split sep (a ++ sep :: rest) = a :: split sep rest.
Proof.
  induction a as [|c a IH]; simpl.
  - intros _. rewrite N.eqb_refl. reflexivity.
  - intros H. destruct (N.eqb c sep) eqn:E.
    + apply N.eqb_eq in E. exfalso. apply H. left. exact E.
    + rewrite IH; [reflexivity|]. intros Hin. apply H. right. exact Hin.
Qed.

(** Splitting what [join] built gives the parts back. *)
Lemma split_join (sep : N) (parts : list jsstring) :
  parts <> [] -> (forall x, In x parts -> ~ In sep x) ->
  split sep (join [sep] parts) = parts.
Proof.
  induction parts as [|x rest IH]; [congruence|]. intros _ H.
  destruct rest as [|y rest].
  - simpl. apply split_no_sep_single. apply H. left. reflexivity.
  - change (join [sep] (x :: y :: rest)) with (x ++ [sep] ++ join [sep] (y :: rest)).
    simpl app at 2. rewrite split_app_sep by (apply H; left; reflexivity).
    f_equal. apply IH; [discriminate|].
    intros z Hz. apply H. right. exact Hz.
Qed.

(* ================================================================== *)
(** * More on the configuration loader                                 *)
(* ================================================================== *)

Lemma default_origins_clean (o : jsstring) :
  In o DEFAULT_ALLOWED_ORIGINS -> o <> [] /\ trim o = o /\ ~ In COMMA o.
Proof.
  intros [<- | [<- | []]]; (split; [discriminate|]);
    (split; [vm_compute; reflexivity|]);
    vm_compute; intuition discriminate.
Qed.

(** X1. Every origin of the configured allow-list is a non-empty string
    without leading or trailing white space and without a comma, whatever
    ALLOWED_ORIGINS holds. *)
Theorem X1_allowed_origins_are_clean_tokens (env : Env) (o : jsstring) :
  In o (getAllowedOrigins env) ->
  o <> [] /\ trim o = o /\ ~ In COMMA o.
Proof.
  unfold getAllowedOrigins.
  destruct (env_ALLOWED_ORIGINS env) as [originsEnv|];
    [|apply default_origins_clean].
  destruct (emptyOrBlank originsEnv); [apply default_origins_clean|].
  intros H. apply filter_In in H. destruct H as [Hin Hlen].
  apply in_map_iff in Hin. destruct Hin as (tok & <- & Htok).
  split; [|split].
  - intros E. rewrite E in Hlen. discriminate.
  - apply trim_idempotent.
  - intros Hc. apply trim_In in Hc. exact (split_no_sep _ _ _ Htok Hc).
Qed.

Lemma X1_allowed_origins_are_clean_tokens_witness :
  lit "https://a.example" <> []
  /\ trim (lit "https://a.example") = lit "https://a.example"
  /\ ~ In COMMA (lit "https://a.example").
Proof.
  apply (X1_allowed_origins_are_clean_tokens
           (mkEnv None (Some (lit " https://a.example , ,http://b.example"))
              None None)).
  vm_compute. left. reflexivity.
Defined.

Lemma join_noLeadingSpace (sep x : jsstring) (rest : list jsstring) :
  x <> [] -> noLeadingSpace x -> noLeadingSpace (join sep (x :: rest))
                                 /\ join sep (x :: rest) <> [].
Proof.
  intros Hne Hh. destruct x as [|c x]; [congruence|].
  destruct rest; simpl; split; try exact Hh; discriminate.
Qed.

(** X2. Round trip of the allow-list: when ALLOWED_ORIGINS is the
    comma-joined form of a non-empty list of origins, each of them
    non-empty, trimmed and free of commas, the configured allow-list is
    that list, in the same order. *)
Theorem X2_allowed_origins_round_trip (env : Env) (origins : list jsstring) :
  origins <> [] ->
  (forall o, In o origins -> o <> [] /\ trim o = o /\ ~ In COMMA o) ->
  env_ALLOWED_ORIGINS env = Some (join [COMMA] origins) ->
  getAllowedOrigins env = origins.
Proof.
  intros Hne Hclean Henv. unfold getAllowedOrigins. rewrite Henv.
  assert (Hb : emptyOrBlank (join [COMMA] origins) = false).
  { rewrite emptyOrBlank_isBlank. apply isBlank_false_trim.
    destruct origins as [|x rest]; [congruence|].
    destruct (Hclean x (or_introl eq_refl)) as (Hx & Ht & _).
    destruct (join_noLeadingSpace [COMMA] x rest Hx (trimmed_noLeadingSpace _ Ht))
      as [Hh Hj].
    apply trim_not_empty; assumption. }
  rewrite Hb, split_join; [|exact Hne|intros x Hx; apply (Hclean x Hx)].
  clear Hne Henv Hb. induction origins as [|x rest IH]; [reflexivity|].
  destruct (Hclean x (or_introl eq_refl)) as (Hx & Ht & _).
  simpl. rewrite Ht. destruct x as [|c x]; [congruence|]. simpl.
  f_equal. apply IH. intros o Ho. apply Hclean. right. exact Ho.
Qed.

Lemma X2_allowed_origins_round_trip_witness :
  getAllowedOrigins
    (mkEnv None
       (Some (join [COMMA] [lit "https://a.example"; lit "http://b.example"]))
       None None)
  = [lit "https://a.example"; lit "http://b.example"].
Proof.
  apply (X2_allowed_origins_round_trip
           (mkEnv None
              (Some (join [COMMA] [lit "https://a.example"; lit "http://b.example"]))
              None None)
           [lit "https://a.example"; lit "http://b.example"]).
  - discriminate.
  - intros o [<- | [<- | []]]; (split; [discriminate|]);
      (split; [vm_compute; reflexivity|]);
      vm_compute; intuition discriminate.
  - reflexivity.
Defined.

Lemma getModelName_not_blank (env : Env) : isBlank (getModelName env) = false.
Proof.
  unfold getModelName.
  destruct (env_AI_MODEL_NAME env) as [m|]; [|vm_compute; reflexivity].
  destruct (emptyOrBlank m) eqn:E; [vm_compute; reflexivity|].
  rewrite emptyOrBlank_isBlank in E. apply isBlank_trim_false. exact E.
Qed.

Lemma buildConfig_ok_inv (env : Env) (config : AppConfig) :
  buildConfig env = ret config ->
  exists key, env_GEMINI_API_KEY env = Some key /\ isBlank key = false
              /\ config = mkAppConfig (trim key) (getAllowedOrigins env)
                            (getModelName env).
Proof.
  unfold buildConfig, getApiKey.
  destruct (env_GEMINI_API_KEY env) as [k|]; [|discriminate].
  destruct (emptyOrBlank k) eqn:E; [discriminate|].
  intros H. injection H as <-. exists k.
  rewrite emptyOrBlank_isBlank in E. repeat split. exact E.
Qed.

Lemma built_config_not_blank (env : Env) (config : AppConfig) :
  buildConfig env = ret config ->
  isBlank (GEMINI_API_KEY config) = false
  /\ isBlank (AI_MODEL_NAME config) = false.
Proof.
  intros H. apply buildConfig_ok_inv in H. destruct H as (k & _ & Hb & ->).
  simpl. split; [apply isBlank_trim_false; exact Hb | apply getModelName_not_blank].
Qed.

(** X3. A configuration that [buildConfig] returned always yields a
    parser service: the constructor's ConfigurationError (invalid API key,
    invalid model name) cannot be raised from it. The service holds the
    trimmed key and the model name of the configuration. *)
Theorem X3_built_config_creates_service (env : Env) (config : AppConfig) :
  buildConfig env = ret config ->
  createAIParserService (GEMINI_API_KEY config) (AI_MODEL_NAME config)
  = ret (mkAIParserService (GEMINI_API_KEY config) (AI_MODEL_NAME config))
  /\ trim (GEMINI_API_KEY config) = GEMINI_API_KEY config
  /\ trim (AI_MODEL_NAME config) = AI_MODEL_NAME config.
Proof.
  intros H. destruct (built_config_not_blank _ _ H) as [Hk Hm].
  unfold createAIParserService, newAIParserService. simpl.
  rewrite !emptyOrBlank_isBlank, Hk, Hm. split; [reflexivity|].
  apply buildConfig_ok_inv in H. destruct H as (k & _ & _ & ->). simpl.
  split; [apply trim_idempotent|].
  unfold getModelName. destruct (env_AI_MODEL_NAME env) as [m|];
    [|vm_compute; reflexivity].
  destruct (emptyOrBlank m); [vm_compute; reflexivity | apply trim_idempotent].
Qed.

Lemma X3_built_config_creates_service_witness :
  createAIParserService (lit "k-123") DEFAULT_MODEL_NAME
  = ret (mkAIParserService (lit "k-123") DEFAULT_MODEL_NAME)
  /\ trim (lit "k-123") = lit "k-123"
  /\ trim DEFAULT_MODEL_NAME = DEFAULT_MODEL_NAME.
Proof.
  exact (X3_built_config_creates_service
           (mkEnv (Some (lit "  k-123 ")) None (Some (lit "   ")) None)
           (mkAppConfig (lit "k-123") DEFAULT_ALLOWED_ORIGINS DEFAULT_MODEL_NAME)
           eq_refl).
Defined.

Lemma trimStart_allWhiteSpace (w s : jsstring) :
  allWhiteSpace w -> trimStart (w ++ s) = trimStart s.
Proof.
  induction 1 as [|c w Hc _ IH]; simpl; [reflexivity|].
  rewrite Hc. exact IH.
Qed.

Lemma allWhiteSpace_trim (s : jsstring) : allWhiteSpace s -> trim s = [].
Proof.
  intros H. unfold trim.
  rewrite <- (app_nil_r s), (trimStart_allWhiteSpace _ _ H). reflexivity.
Qed.

Lemma trim_nil_allWhiteSpace (s : jsstring) : trim s = [] -> allWhiteSpace s.
Proof.
  intros H. destruct (trimStart_decomp s) as (p & Hp & Hpw).
  destruct (trimEnd_decomp (trimStart s)) as (w & Hw & Hww).
  unfold trim in H. rewrite H in Hw. simpl in Hw.
  rewrite Hp, Hw. apply Forall_app. split; assumption.
Qed.

(** The characters of a token are characters of the string. *)
Lemma split_chars (sep : N) (s tok : jsstring) (c : N) :
  In tok (split sep s) -> In c tok -> In c s.
Proof.
  revert tok. induction s as [|d s IH]; simpl; intros tok.
  - intros [<- | []] [].
  - destruct (N.eqb d sep).
    + intros [<- | H] Hc; [destruct Hc | right; exact (IH _ H Hc)].
    + destruct (split sep s) as [|t rest] eqn:Es.
      * intros [<- | []] [<- | []]. left. reflexivity.
      * intros [<- | H] Hc.
        -- destruct Hc as [<- | Hc]; [left; reflexivity|].
           right. exact (IH t (or_introl eq_refl) Hc).
        -- right. apply (IH tok); [right; exact H | exact Hc].
Qed.

(** Every character of the string is the separator or lies in a token. *)
Lemma split_cover (sep : N) (s : jsstring) (c : N) :
  In c s -> c = sep \/ exists tok, In tok (split sep s) /\ In c tok.
Proof.
  induction s as [|d s IH]; simpl; [intros []|].
  destruct (N.eqb d sep) eqn:E.
  - intros [<- | H]; [left; apply N.eqb_eq; exact E|].
    destruct (IH H) as [-> | (tok & Ht & Hc)]; [left; reflexivity|].
    right. exists tok. split; [right; exact Ht | exact Hc].
  - destruct (split sep s) as [|t rest] eqn:Es;
      [exfalso; exact (split_not_nil _ _ Es)|].
    intros [<- | H].
    + right. exists (d :: t). split; left; reflexivity.
    + destruct (IH H) as [-> | (tok & [<- | Ht] & Hc)]; [left; reflexivity| |].
      * right. exists (d :: t). split; [left; reflexivity | right; exact Hc].
      * right. exists tok. split; [right; exact Ht | exact Hc].
Qed.

Lemma filter_nil_iff {A : Type} (f : A -> bool) (l : list A) :
  filter f l = [] <-> forall x, In x l -> f x = false.
Proof.
  induction l as [|a l IH]; simpl; [split; [intros _ x [] | reflexivity]|].
  destruct (f a) eqn:E.
  - split; [discriminate|]. intros H. rewrite (H a (or_introl eq_refl)) in E.
    discriminate.
  - rewrite IH. split.
    + intros H x [<- | Hx]; [exact E | exact (H x Hx)].
    + intros H x Hx. apply H. right. exact Hx.
Qed.

(** The allow-list is empty exactly when ALLOWED_ORIGINS is set, is not
    blank, and holds nothing but commas and white space. *)
Lemma getAllowedOrigins_empty_iff (env : Env) :
  getAllowedOrigins env = []
  <-> exists v, env_ALLOWED_ORIGINS env = Some v /\ isBlank v = false
                /\ forall c, In c v -> c = COMMA \/ isWhiteSpace c = true.
Proof.
  unfold getAllowedOrigins.
  destruct (env_ALLOWED_ORIGINS env) as [v|].
  - rewrite emptyOrBlank_isBlank. destruct (isBlank v) eqn:Hb.
    + split; [discriminate|]. intros (v' & E & Hb' & _).
      injection E as <-. congruence.
    + rewrite filter_nil_iff. split.
      * intros H. exists v. split; [reflexivity|]. split; [exact Hb|].
        intros c Hc.
        destruct (split_cover COMMA v c Hc) as [-> | (tok & Ht & Hct)];
          [left; reflexivity|].
        right. assert (Hn : trim tok = []).
        { specialize (H (trim tok) (in_map trim _ _ Ht)).
          destruct (trim tok); [reflexivity | discriminate]. }
        apply trim_nil_allWhiteSpace in Hn.
        unfold allWhiteSpace in Hn. rewrite Forall_forall in Hn.
        exact (Hn c Hct).
      * intros (v' & E & _ & Hall) o Ho. injection E as <-.
        apply in_map_iff in Ho. destruct Ho as (tok & <- & Ht).
        rewrite allWhiteSpace_trim; [reflexivity|].
        unfold allWhiteSpace. apply Forall_forall. intros c Hc.
        destruct (Hall c (split_chars _ _ _ _ Ht Hc)) as [-> | Hw]; [|exact Hw].
        exfalso. exact (split_no_sep _ _ _ Ht Hc).
  - split; [discriminate|]. intros (v & E & _). discriminate.
Qed.

(** X4. On a configuration that [buildConfig] returned, [isConfigValid]
    is true exactly when the allow-list is not empty: the key and the model
    name can no longer be at fault. It is false exactly when
    ALLOWED_ORIGINS is set, is not blank, and holds nothing but commas and
    white space (hence at least one comma), as in [" , ,"]; an unset or
    blank value gets the defaults and a valid configuration. *)
Theorem X4_isConfigValid_built (env : Env) (config : AppConfig) :
  buildConfig env = ret config ->
  (isConfigValid config = true <-> getAllowedOrigins env <> [])
  /\ (isConfigValid config = false
      <-> exists v, env_ALLOWED_ORIGINS env = Some v /\ isBlank v = false
                    /\ forall c, In c v -> c = COMMA \/ isWhiteSpace c = true).
Proof.
  intros H. destruct (built_config_not_blank _ _ H) as [Hk Hm].
  apply not_blank_not_empty, truthy_JStr in Hk.
  apply not_blank_not_empty, truthy_JStr in Hm.
  unfold isConfigValid. rewrite Hk, Hm, andb_true_r. simpl.
  apply buildConfig_ok_inv in H. destruct H as (k & _ & _ & ->). simpl.
  rewrite <- getAllowedOrigins_empty_iff.
  destruct (getAllowedOrigins env); simpl; split; split;
    try discriminate; try reflexivity.
  intros E. exfalso. apply E. reflexivity.
Qed.

Lemma X4_isConfigValid_built_witness :
  isConfigValid (mkAppConfig (lit "k-123") [] DEFAULT_MODEL_NAME) = false.
Proof.
  apply (proj2 (X4_isConfigValid_built
                  (mkEnv (Some (lit "k-123")) (Some (lit " , ,")) None None)
                  (mkAppConfig (lit "k-123") [] DEFAULT_MODEL_NAME)
                  eq_refl)).
  exists (lit " , ,"). split; [reflexivity|]. split; [reflexivity|].
  intros c [<- | [<- | [<- | [<- | []]]]];
    (left; reflexivity) || (right; reflexivity).
Defined.

(* ================================================================== *)
(** * More on the CORS gate                                            *)
(* ================================================================== *)



Lemma getHeader_ext (r r' : Response) (name : jsstring) :
  resHeaders r = resHeaders r' -> getHeader r name = getHeader r' name.
Proof. unfold getHeader. intros ->. reflexivity. Qed.

Lemma handleError_headers (NODE_ENV : option jsstring) (error : Thrown)
    (res : Response) :
  resHeaders (fst (handleError NODE_ENV error res)) = resHeaders res.
Proof. reflexivity. Qed.

Lemma setCORSHeaders_fixed (res : Response) (origin : jsstring) :
  getHeader (setCORSHeaders res origin) CORS_CREDENTIALS = Some (lit "true")
  /\ getHeader (setCORSHeaders res origin) CORS_METHODS = Some ALLOWED_METHODS
  /\ getHeader (setCORSHeaders res origin) CORS_HEADERS = Some ALLOWED_HEADERS.
Proof.
  unfold setCORSHeaders. rewrite !getHeader_setHeader.
  replace (sameHeader CORS_HEADERS CORS_CREDENTIALS) with false
    by (vm_compute; reflexivity).
  replace (sameHeader CORS_METHODS CORS_CREDENTIALS) with false
    by (vm_compute; reflexivity).
  replace (sameHeader CORS_HEADERS CORS_METHODS) with false
    by (vm_compute; reflexivity).
  rewrite !sameHeader_refl. repeat split.
Qed.

(** The handler touches the headers through the CORS gate only. *)
Lemma handler_headers
    (JSON_parse : jsstring -> jsstring + JSVal)
    (generateContent : AIParserService -> jsstring -> ModelReply)
    (currentYear : nat) (NODE_ENV : option jsstring)
    (config : AppConfig) (req : VercelRequest) (res : Response) :
  resHeaders (fst (handler JSON_parse generateContent currentYear NODE_ENV
                     config req res))
  = resHeaders (setCORSHeaders res
                  (validateOrigin (headers_origin req) (ALLOWED_ORIGINS config))).
Proof.
  unfold handler, corsMiddleware.
  destruct (methodIs req (lit "OPTIONS")); [reflexivity|].
  destruct (pipeline _ _ _ config req) as [[t|shifts] calls]; reflexivity.
Qed.

(** X6. Every response of the handler, the preflight answer, a success
    and an error alike, carries the four CORS headers: the validated
    origin, credentials "true", the fixed list of methods and the fixed
    list of headers. *)
Theorem X6_every_response_has_cors_headers
    (JSON_parse : jsstring -> jsstring + JSVal)
    (generateContent : AIParserService -> jsstring -> ModelReply)
    (currentYear : nat) (NODE_ENV : option jsstring)
    (config : AppConfig) (req : VercelRequest) (res : Response) :
  let out := fst (handler JSON_parse generateContent currentYear NODE_ENV
                    config req res) in
  getHeader out CORS_ORIGIN
  = Some (validateOrigin (headers_origin req) (ALLOWED_ORIGINS config))
  /\ getHeader out CORS_CREDENTIALS = Some (lit "true")
  /\ getHeader out CORS_METHODS = Some (lit "GET,OPTIONS,PATCH,DELETE,POST,PUT")
  /\ getHeader out CORS_HEADERS
     = Some (lit "X-CSRF-Token, X-Requested-With, Accept, Accept-Version, Content-Length, Content-MD5, Content-Type, Date, X-Api-Version").
Proof.
  intros out. subst out.
  rewrite !(getHeader_ext _ _ _ (handler_headers _ _ _ _ _ _ _)).
  destruct (setCORSHeaders_fixed res
              (validateOrigin (headers_origin req) (ALLOWED_ORIGINS config)))
    as (Hc & Hm & Hh).
  rewrite setCORSHeaders_origin, Hc, Hm, Hh. repeat split.
Qed.

(* ================================================================== *)
(** * More on the request validator                                    *)
(* ================================================================== *)

Lemma isParseRequest_inv (b : JSVal) :
  isParseRequest b = true ->
  truthy b = true /\ isObject b = true
  /\ exists s, getProp b TEXT = JStr s /\ isBlank s = false.
Proof.
  unfold isParseRequest.
  destruct (truthy b); simpl; [|discriminate].
  destruct (isObject b); simpl; [|discriminate].
  fold TEXT. rewrite !andb_true_iff. intros [[_ Hs] Hl].
  apply isString_JStr in Hs. destruct Hs as [s Hs]. rewrite Hs in Hl.
  simpl in Hl. repeat split. exists s. split; [exact Hs|].
  apply isBlank_false_trim. intros E. rewrite E in Hl. discriminate.
Qed.

(** Every fault of [validateRequest]: a MethodNotAllowedError for a method
    other than POST, a ValidationError of status 400 otherwise, and never
    the error of the type guard. *)
Lemma validateRequest_throw_inv (req : VercelRequest) (t : Thrown) :
  validateRequest req = throw t ->
  exists e,
    t = Taxonomy e /\ isOperational e = true
    /\ message e <> STRUCTURE_MESSAGE
    /\ ((methodIs req (lit "POST") = false
         /\ e = MethodNotAllowedError (methodOrUnknown req))
        \/ (methodIs req (lit "POST") = true
            /\ errorClass e = ValidationErrorClass /\ statusCode e = 400)).
Proof.
  destruct (methodIs req (lit "POST")) eqn:Hm.
  - destruct (truthy (body req)) eqn:Ht.
    + destruct (isObject (body req)) eqn:Ho.
      * rewrite (validateRequest_post_object req Hm Ht Ho). simpl.
        destruct (truthy (getProp (body req) TEXT)); simpl;
          [|intros H; injection H as <-; eexists; split; [reflexivity|];
            repeat split; [vm_compute; discriminate | right; repeat split]].
        destruct (isString (getProp (body req) TEXT)); simpl;
          [|intros H; injection H as <-; eexists; split; [reflexivity|];
            repeat split; [vm_compute; discriminate | right; repeat split]].
        destruct (isBlank (stringOf (getProp (body req) TEXT))); simpl;
          [|discriminate].
        intros H; injection H as <-; eexists; split; [reflexivity|].
        repeat split; [vm_compute; discriminate | right; repeat split].
      * unfold validateRequest, validateMethod, validateBody.
        rewrite Hm, Ht, Ho. simpl.
        intros H; injection H as <-; eexists; split; [reflexivity|].
        repeat split; [vm_compute; discriminate | right; repeat split].
    + unfold validateRequest, validateMethod, validateBody.
      rewrite Hm, Ht. simpl.
      intros H; injection H as <-; eexists; split; [reflexivity|].
      repeat split; [vm_compute; discriminate | right; repeat split].
  - unfold validateRequest, validateMethod. rewrite Hm. simpl.
    intros H; injection H as <-; eexists; split; [reflexivity|].
    repeat split; [|left; repeat split].
    unfold MethodNotAllowedError. cbn [message]. intros E.
    vm_compute in E. discriminate.
Qed.

(** X7. The full validator accepts a request exactly when its method is
    POST and its body passes the type guard [isParseRequest], and then
    returns the body itself; the guard's own error, "Request body does not
    match expected structure", is never raised, since checks 2 to 5 have
    already refused every body the guard refuses. *)
Theorem X7_validateRequest_accepts_iff_guard (req : VercelRequest) :
  (forall parsed,
     validateRequest req = ret parsed
     <-> methodIs req (lit "POST") = true
         /\ isParseRequest (body req) = true /\ parsed = body req)
  /\ (forall t, validateRequest req = throw t ->
                messageOf t <> STRUCTURE_MESSAGE).
Proof.
  split.
  - intros parsed. split.
    + intros H. apply validateRequest_ok_inv in H.
      destruct H as (-> & Hm & Ht & Ho & s & Hs & Hb).
      repeat split; [exact Hm|].
      apply isParseRequest_after_checks; try assumption; rewrite Hs.
      * apply truthy_JStr, not_blank_not_empty. exact Hb.
      * reflexivity.
      * exact Hb.
    + intros (Hm & Hg & ->). apply isParseRequest_inv in Hg.
      destruct Hg as (Ht & Ho & s & Hs & Hb).
      rewrite (validateRequest_post_object req Hm Ht Ho). simpl. rewrite Hs.
      assert (Hne : truthy (JStr s) = true)
        by (apply truthy_JStr, not_blank_not_empty; exact Hb).
      rewrite Hne. simpl. rewrite Hb. reflexivity.
  - intros t H. apply validateRequest_throw_inv in H.
    destruct H as (e & -> & _ & Hmsg & _). exact Hmsg.
Qed.

(* ================================================================== *)
(** * More on the orchestrator                                         *)
(* ================================================================== *)

Lemma trimStart_app_fix (a b : jsstring) :
  a <> [] -> noLeadingSpace a -> trimStart (a ++ b) = a ++ b.
Proof.
  intros Hne Hh. apply trimStart_fix. destruct a; [congruence | exact Hh].
Qed.

(** Trimming takes white space off both ends and nothing else. *)
Lemma trim_sandwich (pre mid post : jsstring) :
  allWhiteSpace pre -> allWhiteSpace post ->
  mid <> [] -> noLeadingSpace mid -> noLeadingSpace (rev mid) ->
  trim (pre ++ mid ++ post) = mid.
Proof.
  intros Hpre Hpost Hne Hh Ht. unfold trim.
  rewrite (trimStart_allWhiteSpace _ _ Hpre).
  rewrite (trimStart_app_fix _ _ Hne Hh).
  unfold trimEnd. rewrite rev_app_distr.
  rewrite (trimStart_allWhiteSpace _ _ (allWhiteSpace_rev _ Hpost)).
  rewrite (trimStart_fix _ Ht). apply rev_involutive.
Qed.

(** The template is trimmed after the text was put in, and still the
    text is kept as it is: only the line break in front of the template and
    the white space after the closing quote go. *)
Lemma buildPrompt_shape (currentYear : nat) (text : jsstring) :
  buildPrompt currentYear text = promptHead currentYear ++ text ++ QUOTE.
Proof.
  unfold buildPrompt.
  replace (NL ++ _)
    with (NL ++ (promptHead currentYear ++ text ++ QUOTE) ++ (NL ++ lit "    "))
    by (unfold promptHead; repeat rewrite <- app_assoc; reflexivity).
  apply trim_sandwich.
  - repeat constructor.
  - repeat constructor.
  - unfold promptHead. discriminate.
  - exact (eq_refl false).
  - rewrite !rev_app_distr. exact (eq_refl false).
Qed.

(** X8. The prompt holds the user's text verbatim, between the fixed
    instructions and a closing quote: trimming the template never removes
    leading or trailing white space of the text, nothing in the text is
    escaped, and for a given year two different texts give two different
    prompts. *)
Theorem X8_prompt_embeds_text_verbatim (currentYear : nat) (text : jsstring) :
  buildPrompt currentYear text = promptHead currentYear ++ text ++ QUOTE
  /\ length (buildPrompt currentYear text)
     = (length (promptHead currentYear) + length text + 1)%nat
  /\ (forall text', buildPrompt currentYear text = buildPrompt currentYear text' ->
                    text = text').
Proof.
  split; [apply buildPrompt_shape|]. split.
  - rewrite buildPrompt_shape, !length_app. simpl. lia.
  - intros text' H. rewrite !buildPrompt_shape in H.
    apply app_inv_head in H. apply app_inv_tail in H. exact H.
Qed.

Lemma validateShiftsFrom_fault (i : nat) (shifts : list JSVal) (t : Thrown) :
  validateShiftsFrom i shifts = throw t -> isAIServiceFault t.
Proof.
  revert i. induction shifts as [|s rest IH]; intros i; simpl; [discriminate|].
  destruct (validateShift i s) as [t'|[]] eqn:E; simpl; [|apply IH].
  intros H. injection H as <-. unfold validateShift in E.
  destruct (negb (truthy s) || negb (isObject s)).
  - injection E as <-. eexists. repeat split.
  - clear IH. revert E. generalize requiredFields.
    induction l as [|f fs IHf]; [discriminate|].
    rewrite validateFields_cons.
    destruct (negb (truthy (getProp s f)) || negb (isString (getProp s f)));
      [|exact IHf].
    intros H. injection H as <-. eexists. repeat split.
Qed.

Section OrchestratorFaults.

Variable JSON_parse : jsstring -> jsstring + JSVal.
Variable generateContent : AIParserService -> jsstring -> ModelReply.
Variable currentYear : nat.

Local Abbreviation parse := (parseShifts JSON_parse generateContent currentYear).

(** What the [try] block raises for a reply of the model is already an
    AIServiceError. *)
Lemma interpretReply_text_fault (this : AIParserService) (raw : jsstring)
    (t : Thrown) :
  interpretReply JSON_parse this (ReplyText raw) = throw t -> isAIServiceFault t.
Proof.
  simpl.
  destruct (emptyOrBlank raw);
    [intros H; injection H as <-; eexists; repeat split|].
  destruct (JSON_parse raw) as [e|v];
    [intros H; injection H as <-; eexists; repeat split|].
  destruct v; try (intros H; injection H as <-; eexists; repeat split).
  unfold validateShifts.
  destruct (validateShiftsFrom 0 items) as [t'|[]] eqn:E; simpl; [|discriminate].
  intros H. injection H as <-. exact (validateShiftsFrom_fault _ _ _ E).
Qed.

(** So the [catch] block hands it on unchanged. *)
Lemma rethrowOrWrap_text (this : AIParserService) (raw : jsstring) :
  rethrowOrWrap this (interpretReply JSON_parse this (ReplyText raw))
  = interpretReply JSON_parse this (ReplyText raw).
Proof.
  destruct (interpretReply JSON_parse this (ReplyText raw)) as [t|shifts] eqn:E;
    [|reflexivity].
  apply interpretReply_text_fault in E. destruct E as (e & -> & Hc & _).
  simpl. rewrite Hc. reflexivity.
Qed.

Lemma parseShifts_not_blank (this : AIParserService) (s : jsstring) :
  isBlank s = false ->
  parse this (JStr s)
  = (rethrowOrWrap this
       (interpretReply JSON_parse this
          (generateContent this (buildPrompt currentYear s))),
     [buildPrompt currentYear s]).
Proof.
  intros Hb. unfold parseShifts.
  assert (Hne : truthy (JStr s) = true)
    by (apply truthy_JStr, not_blank_not_empty; exact Hb).
  rewrite Hne. change (isString (JStr s)) with true. cbn [negb stringOf].
  rewrite Hb. reflexivity.
Qed.

Lemma parseShifts_blank (this : AIParserService) (s : jsstring) :
  isBlank s = true ->
  parse this (JStr s)
  = (throw (Taxonomy (emptyTextError (Z.of_nat (length s)))), []).
Proof.
  intros Hb. unfold parseShifts. destruct s as [|c s]; [reflexivity|].
  change (truthy (JStr (c :: s))) with true.
  change (isString (JStr (c :: s))) with true.
  cbn [negb stringOf]. rewrite Hb. reflexivity.
Qed.

Lemma parseShifts_string_fault (this : AIParserService) (s : jsstring)
    (t : Thrown) :
  fst (parse this (JStr s)) = throw t -> isAIServiceFault t.
Proof.
  destruct (isBlank s) eqn:Hb.
  - rewrite (parseShifts_blank this s Hb).
    intros H. injection H as <-. eexists. repeat split.
  - rewrite (parseShifts_not_blank this s Hb). simpl fst. intros H.
    destruct (generateContent this (buildPrompt currentYear s)) as [raw|n m].
    + rewrite rethrowOrWrap_text in H. exact (interpretReply_text_fault _ _ _ H).
    + simpl in H. injection H as <-. eexists. repeat split.
Qed.

(** X9. Called with a string, [parseShifts] sends at most one prompt to
    the model, and none exactly when the string is blank; every fault it
    raises is an AIServiceError with status 500 that is operational,
    whether it comes from the guard, from the model client or from the
    checks on the response. *)
Theorem X9_parseShifts_faults_are_AIServiceErrors
    (this : AIParserService) (s : jsstring) :
  snd (parse this (JStr s))
  = (if isBlank s then [] else [buildPrompt currentYear s])
  /\ (forall t, fst (parse this (JStr s)) = throw t -> isAIServiceFault t).
Proof.
  split; [|exact (parseShifts_string_fault this s)].
  destruct (isBlank s) eqn:Hb.
  - rewrite (parseShifts_blank this s Hb). reflexivity.
  - rewrite (parseShifts_not_blank this s Hb). reflexivity.
Qed.

End OrchestratorFaults.

Section OrchestratorReplies.

Variable JSON_parse : jsstring -> jsstring + JSVal.
Variable generateContent : AIParserService -> jsstring -> ModelReply.
Variable currentYear : nat.

Local Abbreviation parse := (parseShifts JSON_parse generateContent currentYear).

(** X10. When the model's response is not JSON, [parseShifts] raises the
    AIServiceError "Failed to parse AI response as JSON"; the preview of the
    response in its context is a prefix of the response of at most 200
    code units (the whole response when it is that short), next to the
    model name and the message of the parser. *)
Theorem X10_parse_failure_preview_bounded
    (this : AIParserService) (s raw parseError : jsstring) :
  isBlank s = false ->
  generateContent this (buildPrompt currentYear s) = ReplyText raw ->
  isBlank raw = false ->
  JSON_parse raw = inl parseError ->
  fst (parse this (JStr s)) = throw (Taxonomy (jsonParseError this raw parseError))
  /\ exists preview,
       context (jsonParseError this raw parseError)
       = Some [(lit "modelName", JStr (this_modelName this));
               (lit "responsePreview", JStr preview);
               (lit "parseError", JStr parseError)]
       /\ isPrefixOf preview raw
       /\ (length preview <= 200)%nat
       /\ ((length raw <= 200)%nat -> preview = raw).
Proof.
  intros Hb Hg Hrb Hp. rewrite (parseShifts_not_blank _ _ _ this s Hb), Hg.
  rewrite rethrowOrWrap_text. simpl.
  rewrite emptyOrBlank_isBlank, Hrb, Hp. split; [reflexivity|].
  exists (firstn 200 raw). split; [reflexivity|]. split; [|split].
  - exists (skipn 200 raw). symmetry. apply firstn_skipn.
  - apply firstn_le_length.
  - intros Hl. apply firstn_all2. exact Hl.
Qed.


(** X11. A fault thrown by the model client is caught and raised again as
    the AIServiceError "Failed to generate shifts from AI service", whose
    context keeps the model name and the message of the original fault;
    one prompt, built from the text and the current year, was sent. *)
Theorem X11_model_fault_is_wrapped
    (this : AIParserService) (s name msg : jsstring) :
  isBlank s = false ->
  generateContent this (buildPrompt currentYear s) = ReplyThrows name msg ->
  parse this (JStr s)
  = (throw (Taxonomy (wrappedModelError this msg)), [buildPrompt currentYear s]).
Proof.
  intros Hb Hg. rewrite (parseShifts_not_blank _ _ _ this s Hb), Hg. reflexivity.
Qed.


(** X12. An error of the local validation of the shifts leaves
    [parseShifts] as [validateShifts] raised it: the catch block does not
    wrap it a second time, so the index and the field of the first
    offending element reach the caller. When the validation passes, the
    parsed elements are returned as they are, in the model's order. *)
Theorem X12_validation_error_not_rewrapped
    (this : AIParserService) (s raw : jsstring) (shifts : list JSVal) :
  isBlank s = false ->
  generateContent this (buildPrompt currentYear s) = ReplyText raw ->
  isBlank raw = false ->
  JSON_parse raw = inr (JArr shifts) ->
  fst (parse this (JStr s))
  = match validateShifts shifts with
    | inl t => throw t
    | inr _ => ret shifts
    end.
Proof.
  intros Hb Hg Hrb Hp. rewrite (parseShifts_not_blank _ _ _ this s Hb), Hg.
  rewrite rethrowOrWrap_text. simpl.
  rewrite emptyOrBlank_isBlank, Hrb, Hp.
  destruct (validateShifts shifts) as [t|[]]; reflexivity.
Qed.


End OrchestratorReplies.

Lemma X10_parse_failure_preview_bounded_witness :
  fst (parseShifts neverParses sampleModel 2026 sampleService
         (JStr (lit "Monday 9 to 5")))
  = throw (Taxonomy (jsonParseError sampleService sampleReply
                       (lit "Unexpected token")))
  /\ exists preview,
       context (jsonParseError sampleService sampleReply (lit "Unexpected token"))
       = Some [(lit "modelName", JStr (this_modelName sampleService));
               (lit "responsePreview", JStr preview);
               (lit "parseError", JStr (lit "Unexpected token"))]
       /\ isPrefixOf preview sampleReply
       /\ (length preview <= 200)%nat
       /\ ((length sampleReply <= 200)%nat -> preview = sampleReply).
Proof.
  apply (X10_parse_failure_preview_bounded neverParses sampleModel 2026
           sampleService (lit "Monday 9 to 5") sampleReply
           (lit "Unexpected token"));
    reflexivity.
Defined.

Lemma X11_model_fault_is_wrapped_witness :
  parseShifts sampleParse failingModel 2026 sampleService
    (JStr (lit "Monday 9 to 5"))
  = (throw (Taxonomy (wrappedModelError sampleService (lit "fetch failed"))),
     [buildPrompt 2026 (lit "Monday 9 to 5")]).
Proof.
  apply (X11_model_fault_is_wrapped sampleParse failingModel 2026 sampleService
           (lit "Monday 9 to 5") (lit "Error") (lit "fetch failed"));
    reflexivity.
Defined.

Lemma X12_validation_error_not_rewrapped_witness :
  fst (parseShifts sampleParse sampleModel 2026 sampleService
         (JStr (lit "Monday 9 to 5")))
  = ret sampleShifts.
Proof.
  apply (X12_validation_error_not_rewrapped sampleParse sampleModel 2026
           sampleService (lit "Monday 9 to 5") sampleReply sampleShifts);
    reflexivity.
Defined.

(* ================================================================== *)
(** * More on the entry point                                          *)
(* ================================================================== *)

Lemma createAIParserService_fault (key model : jsstring) (t : Thrown) :
  createAIParserService key model = throw t ->
  exists e, t = Taxonomy e /\ errorClass e = ConfigurationErrorClass
            /\ statusCode e = 500 /\ isOperational e = false.
Proof.
  unfold createAIParserService, newAIParserService. simpl.
  destruct (emptyOrBlank key);
    [intros H; injection H as <-; eexists; repeat split|].
  destruct (emptyOrBlank model);
    [intros H; injection H as <-; eexists; repeat split|].
  discriminate.
Qed.

Section EntryPointRuns.

Variable JSON_parse : jsstring -> jsstring + JSVal.
Variable generateContent : AIParserService -> jsstring -> ModelReply.
Variable currentYear : nat.
Variable NODE_ENV : option jsstring.

Local Abbreviation parse := (parseShifts JSON_parse generateContent currentYear).
Local Abbreviation run_pipeline :=
  (pipeline JSON_parse generateContent currentYear).
Local Abbreviation run_handler :=
  (handler JSON_parse generateContent currentYear NODE_ENV).

(** Where a fault of the [try] block comes from. *)
Lemma pipeline_throw_inv (config : AppConfig) (req : VercelRequest)
    (t : Thrown) (calls : list Event) :
  run_pipeline config req = (throw t, calls) ->
  (validateRequest req = throw t /\ calls = [CallValidateRequest])
  \/ (validateRequest req = ret (body req)
      /\ createAIParserService (GEMINI_API_KEY config) (AI_MODEL_NAME config)
         = throw t
      /\ calls = [CallValidateRequest])
  \/ (exists s svc,
        validateRequest req = ret (body req)
        /\ getProp (body req) TEXT = JStr s /\ isBlank s = false
        /\ createAIParserService (GEMINI_API_KEY config) (AI_MODEL_NAME config)
           = ret svc
        /\ fst (parse svc (JStr s)) = throw t
        /\ calls = [CallValidateRequest; CallParseShifts (JStr s);
                    CallGenerateContent (buildPrompt currentYear s)]).
Proof.
  unfold pipeline.
  destruct (validateRequest req) as [t0|parsed] eqn:Hv.
  - intros H. injection H as <- <-. left. split; reflexivity.
  - destruct (validateRequest_ok_inv _ _ Hv) as (-> & _ & _ & _ & s & Hs & Hb).
    destruct (createAIParserService _ _) as [t0|svc] eqn:Hc.
    + intros H. injection H as <- <-. right. left. repeat split.
    + change (lit "text") with TEXT. rewrite Hs.
      rewrite (parseShifts_not_blank _ _ _ svc s Hb).
      intros H. injection H as H <-. right. right.
      exists s, svc. rewrite (parseShifts_not_blank _ _ _ svc s Hb).
      repeat split; assumption.
Qed.

(** The status a fault of the [try] block is answered with. *)
Lemma pipeline_throw_status (config : AppConfig) (req : VercelRequest)
    (t : Thrown) (calls : list Event) :
  run_pipeline config req = (throw t, calls) ->
  exists e, t = Taxonomy e
            /\ (statusCode e = 400 \/ statusCode e = 405 \/ statusCode e = 500).
Proof.
  intros H. apply pipeline_throw_inv in H.
  destruct H as [[Hv _] | [(_ & Hc & _) | (s & svc & _ & _ & _ & _ & Hp & _)]].
  - apply validateRequest_throw_inv in Hv.
    destruct Hv as (e & -> & _ & _ & [[_ ->] | (_ & _ & Hs)]);
      eexists; split; try reflexivity; [right; left; reflexivity | left; exact Hs].
  - apply createAIParserService_fault in Hc.
    destruct Hc as (e & -> & _ & Hs & _). exists e. split; [reflexivity | tauto].
  - apply parseShifts_string_fault in Hp.
    destruct Hp as (e & -> & _ & Hs & _). exists e. split; [reflexivity | tauto].
Qed.

Lemma methodIs_post_not_options (req : VercelRequest) :
  methodIs req (lit "POST") = true -> methodIs req (lit "OPTIONS") = false.
Proof.
  unfold methodIs. destruct (method req) as [m|]; [|discriminate].
  intros H. apply str_eqb_eq in H. subst m. reflexivity.
Qed.

Lemma validateRequest_ret_guard (req : VercelRequest) (parsed : JSVal) :
  validateRequest req = ret parsed -> isParseRequest (body req) = true.
Proof.
  intros H. apply validateRequest_ok_inv in H.
  destruct H as (_ & _ & Ht & Ho & s & Hs & Hb).
  apply isParseRequest_after_checks; try assumption; rewrite Hs.
  - apply truthy_JStr, not_blank_not_empty. exact Hb.
  - reflexivity.
  - exact Hb.
Qed.

(** The handler past the CORS gate. *)
Lemma handler_not_options (config : AppConfig) (req : VercelRequest)
    (res : Response) :
  methodIs req (lit "OPTIONS") = false ->
  run_handler config req res
  = let res1 := setCORSHeaders res
                  (validateOrigin (headers_origin req) (ALLOWED_ORIGINS config)) in
    match run_pipeline config req with
    | (inr shifts, calls) => (json (JArr shifts) (status 200 res1), calls)
    | (inl error, calls) =>
        (fst (handleError NODE_ENV error res1), calls ++ [LogError (logError error)])
    end.
Proof.
  intros Ho. unfold handler, corsMiddleware. rewrite Ho.
  destruct (pipeline _ _ _ config req) as [[t|shifts] calls]; reflexivity.
Qed.

Lemma handler_invalid_request (config : AppConfig) (req : VercelRequest)
    (res : Response) (t : Thrown) :
  methodIs req (lit "OPTIONS") = false ->
  validateRequest req = throw t ->
  run_handler config req res
  = (fst (handleError NODE_ENV t
            (setCORSHeaders res
               (validateOrigin (headers_origin req) (ALLOWED_ORIGINS config)))),
     [CallValidateRequest; LogError (logError t)]).
Proof.
  intros Ho Hv. rewrite (handler_not_options config req res Ho).
  unfold pipeline. rewrite Hv. reflexivity.
Qed.

(** X13. A request whose method is neither OPTIONS nor POST is answered
    405 with the message "HTTP method M is not allowed for this endpoint",
    where M is the method or UNKNOWN when the request has none; outside
    production the body also names the method in its context. Only the
    validator is called: neither the orchestrator nor the model is
    reached, and the error is logged once, as an ordinary error. *)
Theorem X13_other_methods_answered_405 (config : AppConfig)
    (req : VercelRequest) (res : Response) :
  methodIs req (lit "OPTIONS") = false ->
  methodIs req (lit "POST") = false ->
  let run := run_handler config req res in
  resStatus (fst run) = 405
  /\ resBody (fst run)
     = Some (BodyJson
               (JObj ([(lit "error",
                        JStr (lit "HTTP method " ++ methodOrUnknown req
                              ++ lit " is not allowed for this endpoint"));
                       (lit "statusCode", JInt 405)]
                      ++ (if notProduction NODE_ENV
                          then [(lit "context",
                                 JObj [(lit "method", JStr (methodOrUnknown req))])]
                          else []))))
  /\ snd run = [CallValidateRequest; LogError (lit "[ERROR]")].
Proof.
  intros Ho Hp run. subst run.
  assert (Hv : validateRequest req
               = throw (Taxonomy (MethodNotAllowedError (methodOrUnknown req)))).
  { unfold validateRequest, validateMethod. rewrite Hp. reflexivity. }
  rewrite (handler_invalid_request config req res _ Ho Hv).
  repeat split.
Qed.

(** X14. A POST request whose body does not pass the type guard (no body,
    a body that is not an object, a [text] that is missing, not a string
    or blank) is answered 400 with the message of a ValidationError and
    [statusCode] 400 in the body; neither the orchestrator nor the model is
    reached. *)
Theorem X14_invalid_body_answered_400 (config : AppConfig)
    (req : VercelRequest) (res : Response) :
  methodIs req (lit "POST") = true ->
  isParseRequest (body req) = false ->
  let run := run_handler config req res in
  resStatus (fst run) = 400
  /\ (exists e,
        errorClass e = ValidationErrorClass
        /\ validateRequest req = throw (Taxonomy e)
        /\ resBody (fst run)
           = Some (BodyJson (buildErrorResponse NODE_ENV (Taxonomy e)))
        /\ getProp (buildErrorResponse NODE_ENV (Taxonomy e)) (lit "statusCode")
           = JInt 400)
  /\ snd run = [CallValidateRequest; LogError (lit "[ERROR]")].
Proof.
  intros Hp Hg run. subst run.
  destruct (validateRequest req) as [t|parsed] eqn:Hv.
  - destruct (validateRequest_throw_inv _ _ Hv)
      as (e & -> & Hop & _ & [[Hp' _] | (_ & Hc & Hs)]); [congruence|].
    rewrite (handler_invalid_request config req res _
               (methodIs_post_not_options req Hp) Hv).
    simpl. rewrite Hs, Hop. simpl. repeat split.
    exists e. repeat split; try assumption; rewrite ?Hs; reflexivity.
  - apply validateRequest_ret_guard in Hv. congruence.
Qed.

End EntryPointRuns.

Lemma X13_other_methods_answered_405_witness :
  let run := handler sampleParse sampleModel 2026 (Some (lit "production"))
               sampleConfig sampleGet freshResponse in
  resStatus (fst run) = 405
  /\ resBody (fst run)
     = Some (BodyJson
               (JObj [(lit "error",
                       JStr (lit "HTTP method GET is not allowed for this endpoint"));
                      (lit "statusCode", JInt 405)]))
  /\ snd run = [CallValidateRequest; LogError (lit "[ERROR]")].
Proof.
  exact (X13_other_methods_answered_405 sampleParse sampleModel 2026
           (Some (lit "production")) sampleConfig sampleGet freshResponse
           eq_refl eq_refl).
Defined.

Lemma X14_invalid_body_answered_400_witness :
  let run := handler sampleParse sampleModel 2026 None sampleConfig
               sampleBadBody freshResponse in
  resStatus (fst run) = 400
  /\ (exists e,
        errorClass e = ValidationErrorClass
        /\ validateRequest sampleBadBody = throw (Taxonomy e)
        /\ resBody (fst run)
           = Some (BodyJson (buildErrorResponse None (Taxonomy e)))
        /\ getProp (buildErrorResponse None (Taxonomy e)) (lit "statusCode")
           = JInt 400)
  /\ snd run = [CallValidateRequest; LogError (lit "[ERROR]")].
Proof.
  exact (X14_invalid_body_answered_400 sampleParse sampleModel 2026 None
           sampleConfig sampleBadBody freshResponse eq_refl eq_refl).
Defined.

Section EntryPointInvariants.

Variable JSON_parse : jsstring -> jsstring + JSVal.
Variable generateContent : AIParserService -> jsstring -> ModelReply.
Variable currentYear : nat.
Variable NODE_ENV : option jsstring.

Local Abbreviation run_pipeline :=
  (pipeline JSON_parse generateContent currentYear).
Local Abbreviation run_handler :=
  (handler JSON_parse generateContent currentYear NODE_ENV).

(** The three outcomes of a run. *)
Lemma handler_outcomes (config : AppConfig) (req : VercelRequest)
    (res : Response) :
  let res1 := setCORSHeaders res
                (validateOrigin (headers_origin req) (ALLOWED_ORIGINS config)) in
  (methodIs req (lit "OPTIONS") = true
   /\ run_handler config req res = (endResponse (status 200 res1), []))
  \/ (exists shifts calls,
        run_pipeline config req = (ret shifts, calls)
        /\ run_handler config req res
           = (json (JArr shifts) (status 200 res1), calls))
  \/ (exists e calls,
        run_pipeline config req = (throw (Taxonomy e), calls)
        /\ (statusCode e = 400 \/ statusCode e = 405 \/ statusCode e = 500)
        /\ run_handler config req res
           = (json (buildErrorResponse NODE_ENV (Taxonomy e))
                (status (statusCode e) res1),
              calls ++ [LogError (logError (Taxonomy e))])).
Proof.
  intros res1. destruct (methodIs req (lit "OPTIONS")) eqn:Ho.
  - left. split; [reflexivity|].
    unfold handler, corsMiddleware. rewrite Ho. reflexivity.
  - right. rewrite (handler_not_options _ _ _ NODE_ENV config req res Ho).
    destruct (pipeline _ _ _ config req) as [[t|shifts] calls] eqn:Hp.
    + right. destruct (pipeline_throw_status _ _ _ _ _ _ _ Hp) as (e & -> & Hs).
      exists e, calls. repeat split. exact Hs.
    + left. exists shifts, calls. split; reflexivity.
Qed.

(** X15. Every response the handler sends has status 200, 400, 405 or
    500; a response whose status is not 200 has a JSON body with the error
    message in [error] and the very status of the response in
    [statusCode]. *)
Theorem X15_responses_have_known_status (config : AppConfig)
    (req : VercelRequest) (res : Response) :
  let out := fst (run_handler config req res) in
  forall sent, resBody out = Some sent ->
    (resStatus out = 200 \/ resStatus out = 400
     \/ resStatus out = 405 \/ resStatus out = 500)
    /\ (resStatus out <> 200 ->
        exists obj msg,
          sent = BodyJson obj
          /\ getProp obj (lit "error") = JStr msg
          /\ getProp obj (lit "statusCode") = JInt (resStatus out)).
Proof.
  intros out. subst out.
  destruct (handler_outcomes config req res)
    as [[_ ->] | [(shifts & calls & _ & ->) | (e & calls & _ & Hs & ->)]]; simpl;
    intros sent Hsent; injection Hsent as <-.
  - split; [tauto|]. intros H. congruence.
  - split; [tauto|]. intros H. congruence.
  - split; [tauto|]. intros _.
    eexists. exists (message e). repeat split.
Qed.

(** X16. In production mode the body of every response whose status is
    not 200 has exactly two fields, [error] and [statusCode]: no diagnostic
    context (provided fields, response preview, original error) is sent to
    the client. *)
Theorem X16_production_hides_context (config : AppConfig)
    (req : VercelRequest) (res : Response) :
  NODE_ENV = Some (lit "production") ->
  let out := fst (run_handler config req res) in
  resStatus out = 200
  \/ exists msg,
       resBody out
       = Some (BodyJson (JObj [(lit "error", JStr msg);
                               (lit "statusCode", JInt (resStatus out))])).
Proof.
  intros Hprod out. subst out.
  destruct (handler_outcomes config req res)
    as [[_ ->] | [(shifts & calls & _ & ->) | (e & calls & _ & Hs & ->)]]; simpl.
  - left. reflexivity.
  - left. reflexivity.
  - right. exists (message e). rewrite Hprod. simpl.
    destruct (context e); reflexivity.
Qed.

(** X17. The round trip: a valid request and a model response that
    parses to an array of well-formed shifts are answered 200 with exactly
    that array, in the model's order, after one call of the validator, one
    of the orchestrator and one of the model, whose prompt is built from
    the request's text; nothing is logged. *)
Theorem X17_valid_request_round_trip (config : AppConfig)
    (req : VercelRequest) (res : Response) (s raw : jsstring)
    (svc : AIParserService) (shifts : list JSVal) :
  validateRequest req = ret (body req) ->
  getProp (body req) TEXT = JStr s ->
  createAIParserService (GEMINI_API_KEY config) (AI_MODEL_NAME config) = ret svc ->
  generateContent svc (buildPrompt currentYear s) = ReplyText raw ->
  isBlank raw = false ->
  JSON_parse raw = inr (JArr shifts) ->
  Forall wellFormedShift shifts ->
  run_handler config req res
  = (json (JArr shifts)
       (status 200
          (setCORSHeaders res
             (validateOrigin (headers_origin req) (ALLOWED_ORIGINS config)))),
     [CallValidateRequest; CallParseShifts (JStr s);
      CallGenerateContent (buildPrompt currentYear s)]).
Proof.
  intros Hv Hs Hc Hg Hrb Hj Hwf.
  destruct (validateRequest_ok_inv _ _ Hv) as (_ & Hm & _ & _ & s' & Hs' & Hb).
  rewrite Hs in Hs'. injection Hs' as <-.
  rewrite (handler_not_options _ _ _ NODE_ENV config req res
             (methodIs_post_not_options req Hm)).
  unfold pipeline. rewrite Hv, Hc. unfold ret. cbv beta iota zeta.
  change (lit "text") with TEXT. rewrite Hs.
  rewrite (parseShifts_not_blank _ _ _ svc s Hb), Hg.
  rewrite (interpretReply_ok _ _ _ _ Hrb Hj Hwf). reflexivity.
Qed.

(** X18. With a configuration that [buildConfig] returned, the handler
    never logs a critical error: whatever the request and the model do,
    every error it logs carries the ordinary marker, because the only
    non-operational error of the taxonomy, the ConfigurationError of the
    service constructor, cannot occur. *)
Theorem X18_built_config_never_critical (env : Env) (config : AppConfig)
    (req : VercelRequest) (res : Response) :
  buildConfig env = ret config ->
  forall marker,
    In (LogError marker) (snd (run_handler config req res)) ->
    marker = lit "[ERROR]".
Proof.
  intros Hcfg marker.
  destruct (handler_outcomes config req res)
    as [[_ ->] | [(shifts & calls & Hp & ->) | (e & calls & Hp & _ & ->)]];
    simpl snd.
  - intros [].
  - apply pipeline_ok_inv in Hp.
    destruct Hp as (s & svc & raw & _ & _ & _ & _ & _ & _ & ->).
    simpl. intuition discriminate.
  - assert (Hop : isOperational e = true /\ ~ In (LogError marker) calls).
    { apply pipeline_throw_inv in Hp.
      destruct Hp as [[Hv ->] | [(_ & Hc & _) | (s & svc & _ & _ & _ & _ & Hf & ->)]].
      - apply validateRequest_throw_inv in Hv.
        destruct Hv as (e' & E & Hop & _). injection E as <-.
        split; [exact Hop | simpl; intuition discriminate].
      - destruct (built_config_not_blank _ _ Hcfg) as [Hk Hm].
        unfold createAIParserService, newAIParserService in Hc. simpl in Hc.
        rewrite !emptyOrBlank_isBlank, Hk, Hm in Hc. discriminate.
      - apply parseShifts_string_fault in Hf.
        destruct Hf as (e' & E & _ & _ & Hop). injection E as <-.
        split; [exact Hop | simpl; intuition discriminate]. }
    destruct Hop as [Hop Hnot]. intros H. apply in_app_or in H.
    destruct H as [H | [H | []]]; [contradiction|].
    injection H as <-. simpl. rewrite Hop. reflexivity.
Qed.

End EntryPointInvariants.

Lemma X16_production_hides_context_witness :
  let out := fst (handler sampleParse sampleModel 2026 (Some (lit "production"))
                    sampleConfig sampleBadBody freshResponse) in
  resStatus out = 200
  \/ exists msg,
       resBody out
       = Some (BodyJson (JObj [(lit "error", JStr msg);
                               (lit "statusCode", JInt (resStatus out))])).
Proof.
  exact (X16_production_hides_context sampleParse sampleModel 2026
           (Some (lit "production")) sampleConfig sampleBadBody freshResponse
           eq_refl).
Defined.

Lemma X17_valid_request_round_trip_witness :
  handler sampleParse sampleModel 2026 None sampleConfig sampleRequest
    freshResponse
  = (json (JArr sampleShifts)
       (status 200
          (setCORSHeaders freshResponse
             (validateOrigin (headers_origin sampleRequest)
                (ALLOWED_ORIGINS sampleConfig)))),
     [CallValidateRequest;
      CallParseShifts (JStr (lit "I work Monday 9am to 5pm"));
      CallGenerateContent (buildPrompt 2026 (lit "I work Monday 9am to 5pm"))]).
Proof.
  apply (X17_valid_request_round_trip sampleParse sampleModel 2026 None
           sampleConfig sampleRequest freshResponse
           (lit "I work Monday 9am to 5pm") sampleReply sampleService
           sampleShifts);
    try reflexivity.
  constructor; [|constructor]. split.
  - right. eexists. reflexivity.
  - intros field [<- | [<- | [<- | []]]]; eexists; (split; [reflexivity | discriminate]).
Defined.

Lemma X18_built_config_never_critical_witness :
  lit "[ERROR]" = lit "[ERROR]".
Proof.
  apply (X18_built_config_never_critical sampleParse sampleModel 2026 None
           (mkEnv (Some (lit " test-key ")) None None None)
           sampleConfig sampleGet freshResponse eq_refl (lit "[ERROR]")).
  right. left. reflexivity.
Defined.

(** X19. The light entry point does not check that there is a body: for a
    request whose body is [undefined] or [null] it fails with a TypeError
    of the engine, not with a ValidationError, and the responder answers
    such a fault with status 500 and the generic message; the full
    validator answers the same POST request with the ValidationError
    "Request body is required" (status 400). *)
Theorem X19_validateTextField_without_body (NODE_ENV : option jsstring)
    (req : VercelRequest) (res : Response) :
  isNullish (body req) = true ->
  (exists msg,
     validateTextField req = throw (Native (lit "TypeError") msg)
     /\ resStatus (fst (handleError NODE_ENV (Native (lit "TypeError") msg) res))
        = 500
     /\ resBody (fst (handleError NODE_ENV (Native (lit "TypeError") msg) res))
        = Some (BodyJson (JObj [(lit "error", JStr GENERIC_MESSAGE);
                                (lit "statusCode", JInt 500)])))
  /\ (methodIs req (lit "POST") = true ->
      validateRequest req
      = throw (Taxonomy (ValidationError (lit "Request body is required")
                 (Some [(lit "contentType",
                         ofOption (headers_content_type req))])))).
Proof.
  intros Hn. split.
  - unfold validateTextField. rewrite Hn. eexists. repeat split.
  - intros Hm. unfold validateRequest, validateMethod, validateBody.
    rewrite Hm. destruct (body req); try discriminate; reflexivity.
Qed.

Lemma X19_validateTextField_without_body_witness :
  validateRequest (mkRequest (Some (lit "POST")) None None JNull)
  = throw (Taxonomy (ValidationError (lit "Request body is required")
             (Some [(lit "contentType", JUndefined)]))).
Proof.
  exact (proj2 (X19_validateTextField_without_body None
                  (mkRequest (Some (lit "POST")) None None JNull)
                  freshResponse eq_refl) eq_refl).
Defined.

Lemma X15_responses_have_known_status_witness :
  let out := fst (handler sampleParse failingModel 2026 None sampleConfig
                    sampleRequest freshResponse) in
  (resStatus out = 200 \/ resStatus out = 400
   \/ resStatus out = 405 \/ resStatus out = 500)
  /\ (resStatus out <> 200 ->
      exists obj msg,
        BodyJson (buildErrorResponse None
                    (Taxonomy (wrappedModelError sampleService (lit "fetch failed"))))
        = BodyJson obj
        /\ getProp obj (lit "error") = JStr msg
        /\ getProp obj (lit "statusCode") = JInt (resStatus out)).
Proof.
  exact (X15_responses_have_known_status sampleParse failingModel 2026 None
           sampleConfig sampleRequest freshResponse _ eq_refl).
Defined.
